(** * mcp-sse: the session-correlated message relay

    A shallow embedding of [middleware.py] (the relay: [run_mcp_tool],
    [handle_sse] with its [event_stream], [handle_messages]) and of the
    request loop of [weather_stdio.py] (the capability-handler program the
    relay spawns), followed by the properties of the relay stated in the
    specification.

    Conventions of the embedding.
    - A Python [str] is a [string]; each character is read as the code
      point of the same number (U+0000 .. U+00FF).
    - A value produced by [json.loads] is a [json]; a JSON object is a
      finite map from strings to values.
    - A Python computation that may raise, or that awaits something which
      has not happened yet, is a value of [res]: [Ret] a result, [Raise]
      an exception, or [Pending] when the awaited event lies beyond the
      stretch of time that is observed.
    - Time is counted in ticks.  A spawned child is observed through the
      function that tells, for each tick after the spawn, whether it has
      exited and with what.
    - The diagnostic [print(..., file=sys.stderr)] calls of the relay
      write to the relay's own log and take part in no response; they are
      left out. *)

From Stdlib Require Import ZArith Floats Lia Ascii String.
From stdpp Require Import base option list strings pretty gmap.

Open Scope string_scope.
Open Scope Z_scope.

(** ** Characters and strings *)

Definition nl : string := String "010"%char "".
Definition dquote : string := String "034"%char "".
Definition backslash : string := String "092"%char "".

(** [str.isspace] on the code points below 256. *)
Definition py_isspace (c : ascii) : bool :=
  let n := N_of_ascii c in
  ((9 <=? n)%N && (n <=? 13)%N) || ((28 <=? n)%N && (n <=? 32)%N)
  || (n =? 133)%N || (n =? 160)%N.

Fixpoint lstrip (s : string) : string :=
  match s with
  | String c s' => if py_isspace c then lstrip s' else s
  | EmptyString => EmptyString
  end.

Fixpoint rstrip (s : string) : string :=
  match s with
  | String c s' =>
      match rstrip s' with
      | EmptyString => if py_isspace c then EmptyString else String c EmptyString
      | r => String c r
      end
  | EmptyString => EmptyString
  end.

(** [s.strip()] *)
Definition strip (s : string) : string := rstrip (lstrip s).

(** [needle in haystack] on strings. *)
Fixpoint contains (needle haystack : string) : bool :=
  String.prefix needle haystack
  || match haystack with
     | String _ h' => contains needle h'
     | EmptyString => false
     end.

Definition hex_digit (n : N) : ascii :=
  ascii_of_N (if (n <? 10)%N then 48 + n else 87 + n)%N.

(** The escape of one character inside [json.dumps] (with the default
    [ensure_ascii=True]). *)
Definition escape_char (c : ascii) : string :=
  let n := N_of_ascii c in
  if (n =? 34)%N then backslash +:+ dquote
  else if (n =? 92)%N then backslash +:+ backslash
  else if (n =? 8)%N then backslash +:+ "b"
  else if (n =? 12)%N then backslash +:+ "f"
  else if (n =? 10)%N then backslash +:+ "n"
  else if (n =? 13)%N then backslash +:+ "r"
  else if (n =? 9)%N then backslash +:+ "t"
  else if ((32 <=? n)%N && (n <=? 126)%N) then String c ""
  else backslash +:+ "u00"
       +:+ String (hex_digit (n / 16)) (String (hex_digit (n mod 16)) "").

Fixpoint escape (s : string) : string :=
  match s with
  | String c s' => escape_char c +:+ escape s'
  | EmptyString => EmptyString
  end.

(** [json.dumps(s)] for a string [s]. *)
Definition dumps_str (s : string) : string := dquote +:+ escape s +:+ dquote.

(** [json.dumps({k: v})] for a one-entry dictionary of strings. *)
Definition dumps_singleton (k v : string) : string :=
  "{" +:+ dumps_str k +:+ ": " +:+ dumps_str v +:+ "}".

(** ** Exceptions and results *)

(** The exceptions that occur, all of them subclasses of [Exception];
    each carries the text of [str(e)]. *)
Inductive exn : Type :=
  | FileNotFoundError (msg : string)
  | JSONDecodeError (msg : string)
  | UnicodeDecodeError (msg : string)
  | AttributeError (msg : string)
  | TypeError (msg : string)
  | UnboundLocalError (msg : string)
  | OtherError (msg : string).

(** [str(e)], the text an f-string puts for [{e}]. *)
Definition exn_str (e : exn) : string :=
  match e with
  | FileNotFoundError m | JSONDecodeError m | UnicodeDecodeError m
  | AttributeError m | TypeError m | UnboundLocalError m | OtherError m => m
  end.

Inductive res (A : Type) : Type :=
  | Ret (a : A)
  | Raise (e : exn)
  | Pending.
Arguments Ret {A} a.
Arguments Raise {A} e.
Arguments Pending {A}.

Definition bind {A B : Type} (m : res A) (k : A -> res B) : res B :=
  match m with
  | Ret a => k a
  | Raise e => Raise e
  | Pending => Pending
  end.

Notation "x <- m ;; k" := (bind m (fun x => k))
  (at level 100, m at next level, right associativity).

(** ** JSON values *)

#[local] Set Warnings "-register-all".

Inductive json : Type :=
  | JNull
  | JBool (b : bool)
  | JInt (z : Z)
  | JFloat (f : float)
  | JStr (s : string)
  | JArr (l : list json)
  | JObj (m : gmap string json).

(** [type(v).__name__] *)
Definition type_name (v : json) : string :=
  match v with
  | JNull => "NoneType"
  | JBool _ => "bool"
  | JInt _ => "int"
  | JFloat _ => "float"
  | JStr _ => "str"
  | JArr _ => "list"
  | JObj _ => "dict"
  end.

(** [bool(v)]: what [not v] tests. *)
Definition truthy (v : json) : bool :=
  match v with
  | JNull => false
  | JBool b => b
  | JInt z => negb (z =? 0)
  | JFloat f => negb (PrimFloat.eqb f 0%float)
  | JStr s => negb (String.eqb s "")
  | JArr l => match l with [] => false | _ :: _ => true end
  | JObj m => negb (bool_decide (m = ∅))
  end.

(** [v == s] for a string literal [s]. *)
Definition eq_str (v : json) (s : string) : bool :=
  match v with
  | JStr s' => String.eqb s' s
  | _ => false
  end.

(** [data.get(key, default)]: only a dictionary has the method. *)
Definition dict_get (data : json) (key : string) (default : json) : res json :=
  match data with
  | JObj m => Ret (match m !! key with Some v => v | None => default end)
  | _ => Raise (AttributeError
                  ("'" +:+ type_name data +:+ "' object has no attribute 'get'"))
  end.

(** [container[key] = v] for a string [key]. *)
Definition setitem (container : json) (key : string) (v : json)
  : res (gmap string json) :=
  match container with
  | JObj m => Ret (<[key := v]> m)
  | JArr _ => Raise (TypeError "list indices must be integers or slices, not str")
  | _ => Raise (TypeError
                  ("'" +:+ type_name container
                   +:+ "' object does not support item assignment"))
  end.

(** ** [uuid.uuid4] of the standard library

    [uuid4()] is [UUID(bytes=os.urandom(16), version=4)]: the 128 random
    bits are read as a big-endian integer, the variant and version fields
    are overwritten, and [str] prints the integer as 32 hexadecimal digits
    in groups of 8-4-4-4-12. *)
Module Uuid.

(** The integer of the UUID made from the random integer [r]. *)
Definition version4 (r : Z) : Z :=
  let i := Z.land r (Z.lnot (Z.shiftl 0xc000 48)) in
  let i := Z.lor i (Z.shiftl 0x8000 48) in
  let i := Z.land i (Z.lnot (Z.shiftl 0xf000 64)) in
  Z.lor i (Z.shiftl 4 76).

Fixpoint hex_go (digits : nat) (i : Z) (acc : string) : string :=
  match digits with
  | O => acc
  | S d => hex_go d (i / 16) (String (hex_digit (Z.to_N (i mod 16))) acc)
  end.

(** ['%032x' % i] *)
Definition hex32 (i : Z) : string := hex_go 32 i "".

(** The grouping of [UUID.__str__]. *)
Definition dashed (h : string) : string :=
  substring 0 8 h +:+ "-" +:+ substring 8 4 h +:+ "-" +:+ substring 12 4 h
  +:+ "-" +:+ substring 16 4 h +:+ "-" +:+ substring 20 12 h.

Definition str (i : Z) : string := dashed (hex32 i).

(** [str(uuid.uuid4())] when [os.urandom(16)] is the integer [r]. *)
Definition uuid4 (r : Z) : string := str (version4 r).



End Uuid.

(** ** Processes *)

(** What a pipe has captured: bytes that are the UTF-8 encoding of a text,
    or bytes that [bytes.decode] refuses with the given message. *)
Inductive captured : Type :=
  | Utf8 (text : string)
  | NotUtf8 (msg : string).

(** [b.decode()] *)
Definition decode (b : captured) : res string :=
  match b with
  | Utf8 text => Ret text
  | NotUtf8 msg => Raise (UnicodeDecodeError msg)
  end.

(** A terminated process: its exit code and what it wrote. *)
Record exit_info : Type := {
  returncode : Z;
  stdout : captured;
  stderr : captured
}.

(** A running child, observed at each tick after the spawn: [None] while
    it runs, [Some x] once it has exited. *)
Definition child : Type := nat -> option exit_info.

(** A spawned program: its behaviour for each request [v] of the relay,
    which writes [json.dumps(v)] on its standard input and closes the
    pipe. *)
Definition program : Type := json -> child.

Inductive spawn : Type :=
  | SpawnFails (e : exn)
  | Spawned (p : program).

(** ** weather_stdio.py: the request loop of the handler program *)
Module Weather.

(** The state of the program: what it has written so far, and the
    local variable [results] of [main] ([None] while unbound). *)
Record proc_state : Type := {
  out : string;
  err : string;
  results : option string
}.

Definition M (A : Type) : Type := proc_state -> proc_state * res A.

Definition mret {A : Type} (a : A) : M A := fun st => (st, Ret a).

Definition mbind {A B : Type} (m : M A) (k : A -> M B) : M B :=
  fun st =>
    match m st with
    | (st', Ret a) => k a st'
    | (st', Raise e) => (st', Raise e)
    | (st', Pending) => (st', Pending)
    end.

Definition lift {A : Type} (r : res A) : M A := fun st => (st, r).

(** [try: body except json.JSONDecodeError: handler] *)
Definition try_json {A : Type} (body handler : M A) : M A :=
  fun st =>
    match body st with
    | (st', Raise (JSONDecodeError _)) => handler st'
    | r => r
    end.

Definition write_out (s : string) : M unit :=
  fun st => ({| out := out st +:+ s; err := err st; results := results st |},
             Ret tt).

Definition write_err (s : string) : M unit :=
  fun st => ({| out := out st; err := err st +:+ s; results := results st |},
             Ret tt).

Definition assign_results (v : string) : M unit :=
  fun st => ({| out := out st; err := err st; results := Some v |}, Ret tt).

(** Reading the local variable [results]. *)
Definition read_results : M string :=
  fun st =>
    match results st with
    | Some v => (st, Ret v)
    | None =>
        (st, Raise (UnboundLocalError
                      "cannot access local variable 'results' where it is not associated with a value"))
    end.

Notation "x <~ m ;; k" := (mbind m (fun x => k))
  (at level 100, m at next level, right associativity).

(** A line of the standard input, by what the loop of [main] does with
    its bytes.  [reader.readline()] returns a line unless it has more
    bytes than the limit of the [StreamReader], when it raises a
    [ValueError] with the given text.  [json.loads] on the bytes of a line
    returns a value or raises: [JSONDecodeError] for a text that is not
    JSON, [UnicodeDecodeError] for bytes that are not a text. *)
Inductive line : Type :=
  | OverLimit (msg : string)
  | Bytes (loaded : exn + json).

(** The default [limit] of a [StreamReader], [2 ** 16] bytes. *)
Definition limit : Z := 65536.

(** [await reader.readline()]; the [ValueError] is an [OtherError]. *)
Definition readline (l : line) : res (exn + json) :=
  match l with
  | OverLimit msg => Raise (OtherError msg)
  | Bytes loaded => Ret loaded
  end.

(** [json.loads(request)] *)
Definition loads (request : exn + json) : res json :=
  match request with
  | inr v => Ret v
  | inl e => Raise e
  end.

Section Handlers.

(** The two capability handlers, which query the weather service:
    for the keyword arguments they are called with, what they log on
    standard error and what they return or raise. *)
Variable get_forecast get_alerts : gmap string json -> string * res string.

(** What the interpreter writes on standard error for an exception
    that leaves [main]. *)
Variable traceback : exn -> string.

(** [await f] on the keyword arguments unpacked from [tool_args]. *)
Definition call (name : string) (f : gmap string json -> string * res string)
    (tool_args : json) : M string :=
  match tool_args with
  | JObj kwargs =>
      fun st =>
        let '(log, r) := f kwargs in
        ({| out := out st; err := err st +:+ log; results := results st |}, r)
  | _ =>
      lift (Raise (TypeError
                     (name +:+ "() argument after ** must be a mapping, not "
                      +:+ type_name tool_args)))
  end.

(** The body of the [try] in the loop of [main]. *)
Definition serve_request (request : exn + json) : M unit :=
  tool_request <~ lift (loads request) ;;
  tool_args <~ lift (dict_get tool_request "arguments" (JObj ∅)) ;;
  tool_args <~ (match tool_request with
                | JObj m =>
                    match m !! "session_id" with
                    | Some sid =>
                        a <~ lift (setitem tool_args "session_id" sid) ;;
                        mret (JObj a)
                    | None => mret tool_args
                    end
                | _ => mret tool_args
                end) ;;
  name <~ lift (dict_get tool_request "tool_name" JNull) ;;
  _ <~ (if eq_str name "get_forecast" then
          r <~ call "get_forecast" get_forecast tool_args ;;
          _ <~ assign_results r ;;
          write_out ("results: " +:+ " " +:+ r +:+ nl)
        else
          name <~ lift (dict_get tool_request "tool_name" JNull) ;;
          if eq_str name "get_alerts" then
            r <~ call "get_alerts" get_alerts tool_args ;;
            _ <~ assign_results r ;;
            write_out ("results" +:+ " " +:+ r +:+ nl)
          else mret tt) ;;
  r <~ read_results ;;
  if negb (String.eqb r "") then
    write_out (dumps_singleton "result" r +:+ nl)
  else mret tt.

(** The loop of [main] over the lines of the standard input; the call
    of [readline] stands before the [try]. *)
Fixpoint main_loop (stdin : list line) : M unit :=
  match stdin with
  | [] => write_err ("No request found" +:+ nl)
  | l :: rest =>
      request <~ lift (readline l) ;;
      _ <~ try_json (serve_request request)
             (_ <~ write_out ("Bad request found" +:+ nl) ;;
              write_err ("Invalid JSON received" +:+ nl)) ;;
      main_loop rest
  end.

(** The whole run of the program: exit code 0 when [main] returns,
    1 with a traceback when an exception leaves it. *)
Definition main (stdin : list line) : res exit_info :=
  match main_loop stdin {| out := ""; err := ""; results := None |} with
  | (st, Ret _) =>
      Ret {| returncode := 0; stdout := Utf8 (out st); stderr := Utf8 (err st) |}
  | (st, Raise e) =>
      Ret {| returncode := 1; stdout := Utf8 (out st);
             stderr := Utf8 (err st +:+ traceback e) |}
  | (_, Pending) => Pending
  end.

(** [json.dumps] as the relay calls it on the request it sends; the
    text is ASCII, one byte for each character. *)
Variable dumps : json -> string.

(** The standard input that the relay gives the program: the bytes of
    [json.dumps] of the request, with no line break after them, and the
    end of input.  [readline] returns them at the end of input, unless
    they are more than [limit]; [json.loads] reads the request back from
    them. *)
Definition request_line (input : json) : line :=
  if limit <? Z.of_nat (String.length (dumps input)) then
    OverLimit "Separator is not found, and chunk exceed the limit"
  else Bytes (inr input).

(** The program as the relay spawns it: it gets the request and the end
    of input, and exits [delay] ticks later. *)
Definition as_program (delay : nat) : program :=
  fun input t =>
    if (t <? delay)%nat then None
    else match main [request_line input] with
         | Ret x => Some x
         | _ => None
         end.

End Handlers.

End Weather.

(** ** middleware.py *)

(** [try: body except Exception as e: handler(e)] *)
Definition try_except {A : Type} (body : res A) (handler : exn -> res A) : res A :=
  match body with
  | Raise e => handler e
  | r => r
  end.

(** [await process.communicate(...)], observed for [fuel] ticks from the
    tick [now] on: it returns when the child has exited, and is still
    pending when the observation ends before that. *)
Fixpoint wait_exit (fuel now : nat) (c : child) : res exit_info :=
  match fuel with
  | O => Pending
  | S fuel' =>
      match c now with
      | Some x => Ret x
      | None => wait_exit fuel' (S now) c
      end
  end.

Definition communicate (fuel : nat) (process : program) (input : json)
  : res exit_info :=
  wait_exit fuel 0%nat (process input).

(** The value [{"tool_name": tool_name, "arguments": tool_args}] whose
    [json.dumps] is written to the child. *)
Definition input_line (tool_name : json) (tool_args : gmap string json) : json :=
  JObj (<["tool_name" := tool_name]> {["arguments" := JObj tool_args]}).

(** The request as the handler sees it: the outcome of
    [await request.json()]. *)
Record Request : Type := { request_json : res json }.

Record JSONResponse : Type := {
  content : gmap string json;
  status_code : Z
}.

Section Middleware.

(** [asyncio.create_subprocess_exec(sys.executable, server_path, ...)]:
    what spawning the interpreter on a path gives. *)
Variable create_subprocess_exec : string -> spawn.

Definition run_mcp_tool (fuel : nat) (server_path : string) (tool_name : json)
    (tool_args : gmap string json) : res string :=
  try_except
    (let input_data := input_line tool_name tool_args in
     process <- match create_subprocess_exec server_path with
                | Spawned p => Ret p
                | SpawnFails e => Raise e
                end ;;
     x <- communicate fuel process input_data ;;
     if negb (returncode x =? 0) then
       text <- decode (stderr x) ;;
       Ret ("MCP server exited with code " +:+ pretty (returncode x)
            +:+ nl +:+ text)
     else
       text <- decode (stdout x) ;;
       Ret (strip text))
    (fun e =>
       match e with
       | FileNotFoundError _ =>
           Ret ("Error: Server file not found at " +:+ server_path)
       | _ => Ret ("Error running MCP server: " +:+ exn_str e)
       end).

(** The closure of [create_starlette_app]. *)
Variable server_path : string.

Definition handle_messages (fuel : nat) (request : Request) : res JSONResponse :=
  try_except
    (data <- request_json request ;;
     session_id <- dict_get data "session_id" JNull ;;
     tool_name <- dict_get data "tool_name" JNull ;;
     tool_args <- dict_get data "arguments" (JObj ∅) ;;
     if negb (truthy session_id) || negb (truthy tool_name) then
       let error_message := "Invalid request: Missing session_id or tool_name" in
       Ret {| content := {["error" := JStr error_message]}; status_code := 400 |}
     else
       tool_args <- setitem tool_args "session_id" session_id ;;
       result <- run_mcp_tool fuel server_path tool_name tool_args ;;
       Ret {| content := {["result" := JStr result]}; status_code := 200 |})
    (fun e =>
       match e with
       | JSONDecodeError _ =>
           Ret {| content := {["error" := JStr "Invalid JSON"]};
                  status_code := 400 |}
       | _ =>
           Ret {| content :=
                    {["error" := JStr ("Error processing message: " +:+ exn_str e)]};
                  status_code := 500 |}
       end).

End Middleware.

(** *** The push channel *)

(** Where the generator [event_stream] stands. *)
Inductive gen_state : Type :=
  | NotStarted
  | AtYield
  | Sleeping (remaining : nat)
  | Finished.

(** What happens to a generator: its consumer asks for the next chunk, a
    time unit passes, the task is cancelled, or an exception is thrown
    into it. *)
Inductive signal : Type :=
  | Next
  | Tick
  | Cancel
  | Throw (e : exn).

(** The first chunk of the stream.  Every character of it is ASCII, so
    [.encode("utf-8")] leaves it as it is. *)
Definition endpoint_message (messages_url : string) : string :=
  "event: endpoint" +:+ nl +:+ "data: "
  +:+ dumps_singleton "messages_url" messages_url +:+ nl +:+ nl.

(** One step of [event_stream]: the new state and the chunks yielded.
    The body yields the endpoint message, then sleeps 60 time units over
    and over; an exception at the [yield] leaves the body, one during the
    sleep is caught and breaks the loop. *)
Definition event_stream (messages_url : string) (st : gen_state) (sg : signal)
  : gen_state * list string :=
  match st, sg with
  | NotStarted, Next => (AtYield, [endpoint_message messages_url])
  | NotStarted, Tick => (NotStarted, [])
  | NotStarted, (Cancel | Throw _) => (Finished, [])
  | AtYield, Next => (Sleeping 60, [])
  | AtYield, Tick => (AtYield, [])
  | AtYield, (Cancel | Throw _) => (Finished, [])
  | Sleeping remaining, Tick =>
      match remaining with
      | S (S n) => (Sleeping (S n), [])
      | _ => (Sleeping 60, [])
      end
  | Sleeping remaining, Next => (Sleeping remaining, [])
  | Sleeping _, (Cancel | Throw _) => (Finished, [])
  | Finished, _ => (Finished, [])
  end.

(** A generator driven by a sequence of signals: the state it ends in and
    everything it has yielded, in order. *)
Fixpoint drive (messages_url : string) (st : gen_state) (sgs : list signal)
  : gen_state * list string :=
  match sgs with
  | [] => (st, [])
  | sg :: rest =>
      let '(st', chunks) := event_stream messages_url st sg in
      let '(st'', chunks') := drive messages_url st' rest in
      (st'', (chunks ++ chunks')%list)
  end.

(** The response of [handle_sse]: the fresh generator with the variables
    it closes over. *)
Record StreamingResponse : Type := {
  session_id : string;
  messages_url : string;
  body_iterator : gen_state;
  media_type : string
}.

(** [handle_sse] when [os.urandom(16)] gives the integer [rand]. *)
Definition handle_sse (rand : Z) : StreamingResponse :=
  let session_id := Uuid.uuid4 rand in
  let messages_url := "/messages/?session_id=" +:+ session_id in
  {| session_id := session_id;
     messages_url := messages_url;
     body_iterator := NotStarted;
     media_type := "text/event-stream" |}.

(** The chunks a connection has put on the push channel after the
    signals [sgs]. *)
Definition sent (r : StreamingResponse) (sgs : list signal) : list string :=
  snd (drive (messages_url r) (body_iterator r) sgs).

Definition state_after (r : StreamingResponse) (sgs : list signal) : gen_state :=
  fst (drive (messages_url r) (body_iterator r) sgs).

(** ** The relay as a whole, and the vocabulary of the properties *)

(** The session ids handed out by a sequence of connections to [/sse],
    one random integer per connection. *)
Definition issued (draws : list Z) : list string :=
  (fun rand => session_id (handle_sse rand)) <$> draws.

(** The child has exited at some tick before [fuel]. *)
Definition exited (c : child) (fuel : nat) : Prop :=
  exists t, (t < fuel)%nat /\ is_Some (c t).

(** The child exits at tick [t] with [x], and not before. *)
Definition exits_first (c : child) (t : nat) (x : exit_info) : Prop :=
  c t = Some x /\ forall t', (t' < t)%nat -> c t' = None.

(** A POST whose body parses to the object with the given entries. *)
Definition post (entries : list (string * json)) : Request :=
  {| request_json := Ret (JObj (list_to_map entries)) |}.

(** Sample environments: every spawn succeeds, and the child exits at
    tick [t] with [x] whatever it reads; or it never exits. *)
Definition exits_at (t : nat) (x : exit_info) : string -> spawn :=
  fun _ => Spawned (fun _ now => if (now <? t)%nat then None else Some x).

Definition never_exits : string -> spawn :=
  fun _ => Spawned (fun _ _ => None).

(** The relay in front of [weather_stdio.py]. *)
Definition weather_env (get_forecast get_alerts : gmap string json -> string * res string)
    (traceback : exn -> string) (dumps : json -> string) (delay : nat)
  : string -> spawn :=
  fun _ => Spawned (Weather.as_program get_forecast get_alerts traceback dumps delay).

(** The request is within the limit of the reader of the program. *)
Definition fits (dumps : json -> string) (input : json) : Prop :=
  Z.of_nat (String.length (dumps input)) <= Weather.limit.

(** The [ValueError] of [readline] for a request of the relay that is
    over the limit. *)
Definition over_limit : exn :=
  OtherError "Separator is not found, and chunk exceed the limit".

(** A sample text of [n] letters. *)
Fixpoint letters (n : nat) : string :=
  match n with
  | O => ""
  | S n' => String "a" (letters n')
  end.

(** The text of the exception raised by reading [results] unbound. *)
Definition unbound_results : exn :=
  UnboundLocalError
    "cannot access local variable 'results' where it is not associated with a value".

(** The object body [m] passes the check of [handle_messages]: it has a
    truthy [session_id] and a truthy [tool_name], and its [arguments], when
    present, are the object [a] ([a] is empty when they are absent). *)
Definition valid_body (m : gmap string json) (sid tool : json)
    (a : gmap string json) : Prop :=
  m !! "session_id" = Some sid /\ truthy sid = true /\
  m !! "tool_name" = Some tool /\ truthy tool = true /\
  (m !! "arguments" = None /\ a = ∅ \/ m !! "arguments" = Some (JObj a)).

(** The response that carries a tool result. *)
Definition result_response (result : string) : JSONResponse :=
  {| content := {["result" := JStr result]}; status_code := 200 |}.

(** The response that carries an error text. *)
Definition error_response (error_message : string) (status : Z) : JSONResponse :=
  {| content := {["error" := JStr error_message]}; status_code := status |}.

(** A character that [json.dumps] leaves as it is: printable ASCII other
    than the double quote and the backslash. *)
Definition plain (c : ascii) : bool :=
  let n := N_of_ascii c in
  (32 <=? n)%N && (n <=? 126)%N && negb (n =? 34)%N && negb (n =? 92)%N.

Fixpoint all_plain (s : string) : bool :=
  match s with
  | String c s' => plain c && all_plain s'
  | EmptyString => true
  end.

(** ** Vocabulary for the further properties *)

(** Every character of the string is white space. *)
Fixpoint all_space (s : string) : bool :=
  match s with
  | String c s' => py_isspace c && all_space s'
  | EmptyString => true
  end.

(** The first and the last character of a string. *)
Definition first_char (s : string) : option ascii :=
  match s with
  | String c _ => Some c
  | EmptyString => None
  end.

Fixpoint last_char (s : string) : option ascii :=
  match s with
  | String c EmptyString => Some c
  | String _ s' => last_char s'
  | EmptyString => None
  end.

(** The text of the [TypeError] of [v["session_id"] = ...] for a value
    [v] that is not a dictionary. *)
Definition item_assignment_error (v : json) : string :=
  match v with
  | JArr _ => "list indices must be integers or slices, not str"
  | _ => "'" +:+ type_name v +:+ "' object does not support item assignment"
  end.

(** A computation of the handler program only appends to what has been
    written: run from a state with output [o] and [e], it does what it
    does from the empty output, after [o] and [e]. *)
Definition appends {A : Type} (m : Weather.M A) : Prop :=
  forall o e rs,
    m {| Weather.out := o; Weather.err := e; Weather.results := rs |}
    = let '(st, r) :=
        m {| Weather.out := ""; Weather.err := ""; Weather.results := rs |} in
      ({| Weather.out := o +:+ Weather.out st;
          Weather.err := e +:+ Weather.err st;
          Weather.results := Weather.results st |}, r).

(** ** weather_stdio.py: the handlers

    The classes and texts of the run-time errors are those of CPython
    3.12; a [KeyError] is an [OtherError] whose text is the key between
    quotes. *)
Module Handlers.

Definition NWS_API_BASE : string := "https://api.weather.gov".

(** The degree sign, U+00B0. *)
Definition degree : string := String "176"%char "".

(** [sep.join(l)] *)
Fixpoint join (sep : string) (l : list string) : string :=
  match l with
  | [] => ""
  | [x] => x
  | x :: rest => x +:+ sep +:+ join sep rest
  end.

(** [[f(x) for x in l]]: the calls are made in order, and the first
    exception ends the comprehension. *)
Fixpoint map_res {A B : Type} (f : A -> res B) (l : list A) : res (list B) :=
  match l with
  | [] => Ret []
  | x :: rest =>
      y <- f x ;;
      ys <- map_res f rest ;;
      Ret (y :: ys)
  end.

(** The characters of a string, each as a string of length one. *)
Fixpoint chars (s : string) : list json :=
  match s with
  | String c s' => JStr (String c "") :: chars s'
  | EmptyString => []
  end.

(** [container[key]] for a string [key]. *)
Definition getitem (container : json) (key : string) : res json :=
  match container with
  | JObj m =>
      match m !! key with
      | Some v => Ret v
      | None => Raise (OtherError ("'" +:+ key +:+ "'"))
      end
  | JArr _ => Raise (TypeError "list indices must be integers or slices, not str")
  | JStr _ => Raise (TypeError "string indices must be integers, not 'str'")
  | _ => Raise (TypeError
                  ("'" +:+ type_name container +:+ "' object is not subscriptable"))
  end.

(** [key in data] for a string [key]. *)
Definition contains_key (data : json) (key : string) : res bool :=
  match data with
  | JObj m => Ret (bool_decide (is_Some (m !! key)))
  | JArr l => Ret (existsb (fun v => eq_str v key) l)
  | JStr s => Ret (contains key s)
  | _ => Raise (TypeError
                  ("argument of type '" +:+ type_name data +:+ "' is not iterable"))
  end.

(** What [for x in v] goes through.  The keys of a dictionary come in the
    order of insertion, which a finite map does not keep; the handlers
    fail alike on every key. *)
Definition elements (v : json) : res (list json) :=
  match v with
  | JArr l => Ret l
  | JStr s => Ret (chars s)
  | JObj m => Ret (JStr <$> (map_to_list m).*1)
  | _ => Raise (TypeError ("'" +:+ type_name v +:+ "' object is not iterable"))
  end.

(** What [for x in v[:5]] goes through. *)
Definition first_five (v : json) : res (list json) :=
  match v with
  | JArr l => Ret (take 5 l)
  | JStr s => Ret (take 5 (chars s))
  | JObj _ => Raise (OtherError "slice(None, 5, None)")
  | _ => Raise (TypeError
                  ("'" +:+ type_name v +:+ "' object is not subscriptable"))
  end.

(** The first key of the keyword arguments that is not a parameter of the
    function called.  (Of several such keys Python names the first in the
    order of insertion.) *)
Definition unexpected (params : list string) (kwargs : gmap string json)
  : option string :=
  head (filter (fun k => k ∉ params) (map_to_list kwargs).*1).

Section Service.

(** The weather service behind [make_nws_request]: for each URL, the parsed
    body of its answer, or [None] when the request fails, for whatever
    reason. *)
Variable service : string -> option json.

(** [str(v)] for a float, a list or a dictionary. *)
Variable repr : json -> string.

(** [await make_nws_request(url)]: every failure is [None]; a URL that is
    not a string is refused by the HTTP client inside the [try]. *)
Definition make_nws_request (url : json) : json :=
  match url with
  | JStr u => default JNull (service u)
  | _ => JNull
  end.

(** [str(v)], what an f-string puts for [{v}]. *)
Definition py_str (v : json) : string :=
  match v with
  | JStr s => s
  | JNull => "None"
  | JBool true => "True"
  | JBool false => "False"
  | JInt z => pretty z
  | _ => repr v
  end.

Definition format_alert (feature : json) : res string :=
  props <- getitem feature "properties" ;;
  event <- dict_get props "event" (JStr "Unknown") ;;
  areaDesc <- dict_get props "areaDesc" (JStr "Unknown") ;;
  severity <- dict_get props "severity" (JStr "Unknown") ;;
  description <- dict_get props "description" (JStr "No description available") ;;
  instruction <- dict_get props "instruction"
                   (JStr "No specific instructions provided") ;;
  Ret (nl +:+ "Event: " +:+ py_str event +:+ nl
       +:+ "Area: " +:+ py_str areaDesc +:+ nl
       +:+ "Severity: " +:+ py_str severity +:+ nl
       +:+ "Description: " +:+ py_str description +:+ nl
       +:+ "Instructions: " +:+ py_str instruction +:+ nl).

(** A handler has printed [log] on the standard error and then computes
    [r], which gives what it prints at its end and what it returns. *)
Definition logged (log : string) (r : res (string * string)) : string * res string :=
  match r with
  | Ret (log', text) => (log +:+ log', Ret text)
  | Raise e => (log, Raise e)
  | Pending => (log, Pending)
  end.

(** The body of [get_alerts]. *)
Definition get_alerts_body (state session_id : json) : string * res string :=
  let url := NWS_API_BASE +:+ "/alerts/active/area/" +:+ py_str state in
  let data := make_nws_request (JStr url) in
  logged
    ("get_alerts called with state=" +:+ py_str state +:+ ", session_id="
     +:+ py_str session_id +:+ nl)
    (if negb (truthy data) then
       Ret ("", "Unable to fetch alerts or no alerts found.")
     else
       present <- contains_key data "features" ;;
       if negb present then
         Ret ("", "Unable to fetch alerts or no alerts found.")
       else
         features <- getitem data "features" ;;
         if negb (truthy features) then
           Ret ("", "No active alerts for this state.")
         else
           items <- elements features ;;
           alerts <- map_res format_alert items ;;
           let result_string := join (nl +:+ "---" +:+ nl) alerts in
           Ret ("get_alerts result: " +:+ result_string +:+ nl, result_string)).

(** [get_alerts] called with the keyword arguments [kwargs]: the
    parameters are [state] and, with the empty string as its default,
    [session_id]. *)
Definition get_alerts (kwargs : gmap string json) : string * res string :=
  match unexpected ["state"; "session_id"] kwargs with
  | Some k =>
      ("", Raise (TypeError
                    ("get_alerts() got an unexpected keyword argument '"
                     +:+ k +:+ "'")))
  | None =>
      match kwargs !! "state" with
      | None =>
          ("", Raise (TypeError
                        "get_alerts() missing 1 required positional argument: 'state'"))
      | Some state =>
          get_alerts_body state (default (JStr "") (kwargs !! "session_id"))
      end
  end.

(** The text of one period in [get_forecast]. *)
Definition format_period (period : json) : res string :=
  name <- getitem period "name" ;;
  temperature <- getitem period "temperature" ;;
  temperatureUnit <- getitem period "temperatureUnit" ;;
  windSpeed <- getitem period "windSpeed" ;;
  windDirection <- getitem period "windDirection" ;;
  detailedForecast <- getitem period "detailedForecast" ;;
  Ret (nl +:+ py_str name +:+ ":" +:+ nl
       +:+ "Temperature: " +:+ py_str temperature +:+ degree
       +:+ py_str temperatureUnit +:+ nl
       +:+ "Wind: " +:+ py_str windSpeed +:+ " " +:+ py_str windDirection +:+ nl
       +:+ "Forecast: " +:+ py_str detailedForecast +:+ nl).

(** The body of [get_forecast]. *)
Definition get_forecast_body (latitude longitude session_id : json)
  : string * res string :=
  let points_url :=
    NWS_API_BASE +:+ "/points/" +:+ py_str latitude +:+ "," +:+ py_str longitude in
  let points_data := make_nws_request (JStr points_url) in
  logged
    ("get_forecast called with latitude=" +:+ py_str latitude +:+ ", longitude="
     +:+ py_str longitude +:+ ", session_id=" +:+ py_str session_id +:+ nl)
    (if negb (truthy points_data) then
       Ret ("", "Unable to fetch forecast data for this location.")
     else
       properties <- getitem points_data "properties" ;;
       forecast_url <- getitem properties "forecast" ;;
       let forecast_data := make_nws_request forecast_url in
       if negb (truthy forecast_data) then
         Ret ("", "Unable to fetch detailed forecast.")
       else
         properties <- getitem forecast_data "properties" ;;
         periods <- getitem properties "periods" ;;
         shown <- first_five periods ;;
         forecasts <- map_res format_period shown ;;
         let result_string := join (nl +:+ "---" +:+ nl) forecasts in
         Ret ("get_forecast result: " +:+ result_string +:+ nl, result_string)).

(** [get_forecast] called with the keyword arguments [kwargs]: the
    parameters are [latitude], [longitude] and, with the empty string as
    its default, [session_id]. *)
Definition get_forecast (kwargs : gmap string json) : string * res string :=
  match unexpected ["latitude"; "longitude"; "session_id"] kwargs with
  | Some k =>
      ("", Raise (TypeError
                    ("get_forecast() got an unexpected keyword argument '"
                     +:+ k +:+ "'")))
  | None =>
      match kwargs !! "latitude", kwargs !! "longitude" with
      | Some latitude, Some longitude =>
          get_forecast_body latitude longitude
            (default (JStr "") (kwargs !! "session_id"))
      | None, Some _ =>
          ("", Raise (TypeError
                        "get_forecast() missing 1 required positional argument: 'latitude'"))
      | Some _, None =>
          ("", Raise (TypeError
                        "get_forecast() missing 1 required positional argument: 'longitude'"))
      | None, None =>
          ("", Raise (TypeError
                        "get_forecast() missing 2 required positional arguments: 'latitude' and 'longitude'"))
      end
  end.

End Service.

End Handlers.

(** The computation has returned a value. *)
Definition returns {A : Type} (r : res A) : Prop := exists a, r = Ret a.

(** A feature that [format_alert] can format: an object whose
    [properties] are an object. *)
Definition well_formed_feature (feature : json) : Prop :=
  exists f props, feature = JObj f /\ f !! "properties" = Some (JObj props).

(** The answers of the service to [get_forecast] for a place: the points
    request gives the URL of the forecast, and the forecast request gives
    the list [periods]. *)
Definition forecast_periods (service : string -> option json) (repr : json -> string)
    (latitude longitude : json) (periods : list json) : Prop :=
  exists (p pp fd fp : gmap string json) (url : string),
    service (Handlers.NWS_API_BASE +:+ "/points/"
             +:+ Handlers.py_str repr latitude +:+ ","
             +:+ Handlers.py_str repr longitude)
    = Some (JObj p) /\
    p !! "properties" = Some (JObj pp) /\
    pp !! "forecast" = Some (JStr url) /\
    service url = Some (JObj fd) /\
    fd !! "properties" = Some (JObj fp) /\
    fp !! "periods" = Some (JArr periods).

(** Sample answers of the service: a period, and a service that answers
    the place 34,-118 with the given periods. *)
Definition sample_period (name : string) : json :=
  JObj (<["name" := JStr name]> (<["temperature" := JInt 71]>
         (<["temperatureUnit" := JStr "F"]> (<["windSpeed" := JStr "5 mph"]>
           (<["windDirection" := JStr "SW"]>
             {["detailedForecast" := JStr "Sunny."]}))))).

Definition sample_service (periods : list json) : string -> option json :=
  fun url =>
    if String.eqb url "https://api.weather.gov/points/34,-118" then
      Some (JObj {["properties" :=
                     JObj {["forecast" := JStr "https://api.weather.gov/f"]}]})
    else if String.eqb url "https://api.weather.gov/f" then
      Some (JObj {["properties" := JObj {["periods" := JArr periods]}]})
    else None.

(** ** groq_client_middleware.py: the client of the relay *)
Module Client.

(** How [session.post] ends: with a response, of which the status is
    looked at, or with an exception. *)
Inductive posted : Type :=
  | Responded (status : Z)
  | PostRaises (e : exn).

Definition post_message (outcome : posted) : bool :=
  match outcome with
  | Responded status =>
      if status =? 202 then true
      else if (status =? 400) || (status =? 404) || (status =? 500) then false
      else false
  | PostRaises _ => false
  end.

(** [s[n:]] *)
Fixpoint drop_chars (n : nat) (s : string) : string :=
  match n, s with
  | S n', String _ s' => drop_chars n' s'
  | _, _ => s
  end.

(** [s.split(sep, 1)[1]]: what follows the first [sep] in [s]; [None]
    stands for the [IndexError] when [sep] does not occur. *)
Fixpoint after_first (sep s : string) : option string :=
  if String.prefix sep s then Some (drop_chars (String.length sep) s)
  else match s with
       | String _ s' => after_first sep s'
       | EmptyString => None
       end.

(** The local variables of [sse_client], and the queue it was given. *)
Record sse_state : Type := {
  session_id : option string;
  messages_url : option json;
  endpoint_found : bool;
  message_queue : list json
}.

(** What the client gets from the server: the connection fails, or there
    is a response with a status and a body that comes in chunks and then
    ends, by itself or with an error of the transport. *)
Inductive stream : Type :=
  | ConnectFails (e : exn)
  | Stream (status : Z) (chunks : list captured) (ending : option exn).

Section Libraries.

(** [json.loads] on a string: the value, or the exception raised. *)
Variable loads : string -> exn + json.

(** The session id that [urllib.parse] finds in a URL, that is
    [parse_qs(urlparse(url).query).get("session_id", [None])[0]], or the
    exception raised on the way.  Neither library raises [KeyError] or
    [IndexError]; the [KeyError] of [endpoint_data["messages_url"]] is the
    [OtherError] of [Handlers.getitem], which raises no other one. *)
Variable session_id_of : json -> exn + option string.

(** Whether an exception that leaves the inner [try] blocks is one that
    the handler [except UnicodeDecodeError] of the loop body takes, so
    that the loop goes on. *)
Definition skipped (e : exn) : bool :=
  match e with
  | UnicodeDecodeError _ => true
  | _ => false
  end.

(** The body of the loop of [sse_client] for one chunk: the new state,
    and the exception that leaves the loop, if any. *)
Definition on_chunk (line : captured) (st : sse_state) : sse_state * option exn :=
  match line with
  | NotUtf8 _ => (st, None)
  | Utf8 EmptyString => (st, None)
  | Utf8 text =>
      let decoded_line := strip text in
      if String.prefix "event: endpoint" decoded_line && negb (endpoint_found st)
      then
        let st1 := {| session_id := session_id st;
                      messages_url := messages_url st;
                      endpoint_found := true;
                      message_queue := message_queue st |} in
        match after_first "data: " decoded_line with
        | None => (st1, None)
        | Some data_part =>
            match loads data_part with
            | inl (JSONDecodeError _) => (st1, None)
            | inl e => (st1, if skipped e then None else Some e)
            | inr endpoint_data =>
                match Handlers.getitem endpoint_data "messages_url" with
                | Ret url =>
                    let st2 := {| session_id := session_id st1;
                                  messages_url := Some url;
                                  endpoint_found := true;
                                  message_queue := message_queue st1 |} in
                    match session_id_of url with
                    | inr sid =>
                        ({| session_id := sid;
                            messages_url := Some url;
                            endpoint_found := true;
                            message_queue := message_queue st1 |}, None)
                    | inl (JSONDecodeError _) => (st2, None)
                    | inl e => (st2, if skipped e then None else Some e)
                    end
                | Raise (OtherError _) => (st1, None)
                | Raise e => (st1, Some e)
                | Pending => (st1, None)
                end
            end
        end
      else if String.prefix "data:" decoded_line && endpoint_found st then
        let data := strip (drop_chars 5 decoded_line) in
        match loads data with
        | inr message =>
            ({| session_id := session_id st;
                messages_url := messages_url st;
                endpoint_found := endpoint_found st;
                message_queue := (message_queue st ++ [message])%list |}, None)
        | inl (JSONDecodeError _) => (st, None)
        | inl e => (st, if skipped e then None else Some e)
        end
      else (st, None)
  end.

(** The loop over the chunks of the body. *)
Fixpoint listen (chunks : list captured) (st : sse_state) : sse_state * option exn :=
  match chunks with
  | [] => (st, None)
  | line :: rest =>
      match on_chunk line st with
      | (st', None) => listen rest st'
      | (st', Some e) => (st', Some e)
      end
  end.

(** [sse_client]: the pair it returns when the stream has ended, and the
    queue as it has left it. *)
Definition sse_client (s : stream) (message_queue : list json)
  : (option json * option string) * list json :=
  match s with
  | ConnectFails _ => ((None, None), message_queue)
  | Stream status chunks ending =>
      if status =? 200 then
        match listen chunks {| session_id := None; messages_url := None;
                               endpoint_found := false;
                               message_queue := message_queue |} with
        | (st, Some _) => ((None, None), Client.message_queue st)
        | (st, None) =>
            match ending with
            | Some _ => ((None, None), Client.message_queue st)
            | None => ((messages_url st, session_id st), Client.message_queue st)
            end
        end
      else ((None, None), message_queue)
  end.

End Libraries.

(** A chunk that the loop takes for the endpoint event, if it has not
    seen one yet. *)
Definition endpoint_event (line : captured) : bool :=
  match line with
  | Utf8 text => String.prefix "event: endpoint" (strip text)
  | NotUtf8 _ => false
  end.

(** The two request bodies that [main] posts; a decimal literal stands
    for the nearest double, as in Python. *)
#[local] Set Warnings "-inexact-float".

Definition message_forecast (session_id : string) : gmap string json :=
  {[ "jsonrpc" := JStr "2.0";
     "method" := JStr "tools/call";
     "params" :=
       JObj {[ "session_id" := JStr session_id;
               "tool_name" := JStr "get_forecast";
               "arguments" :=
                 JObj {[ "latitude" := JFloat 34.0522%float;
                         "longitude" := JFloat (-118.2437)%float ]} ]} ]}.

Definition message_alerts (session_id : string) : gmap string json :=
  {[ "jsonrpc" := JStr "2.0";
     "method" := JStr "tools/call";
     "params" :=
       JObj {[ "session_id" := JStr session_id;
               "tool_name" := JStr "get_alerts";
               "arguments" := JObj {[ "state" := JStr "CA" ]} ]} ]}.

End Client.

(** * Properties *)

(** ** Waiting for the child *)

Lemma wait_exit_not_raise fuel now c e : wait_exit fuel now c <> Raise e.
Proof.
  revert now. induction fuel as [|fuel IH]; intros now; simpl; [discriminate|].
  destruct (c now); [discriminate | apply IH].
Qed.

Lemma wait_exit_pending fuel now c :
  wait_exit fuel now c = Pending <->
  forall t, (now <= t < now + fuel)%nat -> c t = None.
Proof.
  revert now. induction fuel as [|fuel IH]; intros now; simpl.
  - split; [intros _ t Ht; lia | reflexivity].
  - destruct (c now) as [x|] eqn:Hc.
    + split; [discriminate|].
      intros H. specialize (H now ltac:(lia)). congruence.
    + rewrite IH. split; intros H t Ht.
      * destruct (decide (t = now)) as [->|Hne]; [assumption|].
        apply H. lia.
      * apply H. lia.
Qed.

(** The first tick at which the child is seen exited decides the result. *)
Lemma wait_exit_first fuel now c k x :
  (forall t, (now <= t < now + k)%nat -> c t = None) ->
  c (now + k)%nat = Some x -> (k < fuel)%nat ->
  wait_exit fuel now c = Ret x.
Proof.
  revert now fuel. induction k as [|k IH]; intros now fuel Hnone Hsome Hlt.
  - destruct fuel as [|fuel]; [lia|]. simpl.
    replace (now + 0)%nat with now in Hsome by lia. rewrite Hsome. reflexivity.
  - destruct fuel as [|fuel]; [lia|]. simpl.
    rewrite (Hnone now) by lia.
    apply IH; [| | lia].
    + intros t Ht. apply Hnone. lia.
    + replace (S now + k)%nat with (now + S k)%nat by lia. assumption.
Qed.

(** ** [run_mcp_tool] *)

Section RunMcpTool.

Variable create_subprocess_exec : string -> spawn.
Variables (fuel : nat) (server_path : string) (tool_name : json).
Variable tool_args : gmap string json.

Local Abbreviation run :=
  (run_mcp_tool create_subprocess_exec fuel server_path tool_name tool_args).

Lemma run_mcp_tool_not_raise e : run <> Raise e.
Proof.
  unfold run, run_mcp_tool, communicate.
  destruct (create_subprocess_exec server_path) as [e'|p]; simpl.
  - destruct e'; discriminate.
  - destruct (wait_exit fuel 0 _) as [x|e'|] eqn:Hw; simpl.
    + destruct (negb (returncode x =? 0)).
      * destruct (stderr x) as [text|msg]; simpl; discriminate.
      * destruct (stdout x) as [text|msg]; simpl; discriminate.
    + destruct e'; discriminate.
    + discriminate.
Qed.

Lemma run_mcp_tool_spawn_fails e :
  create_subprocess_exec server_path = SpawnFails e ->
  run = Ret (match e with
             | FileNotFoundError _ =>
                 "Error: Server file not found at " +:+ server_path
             | _ => "Error running MCP server: " +:+ exn_str e
             end).
Proof.
  intros H. unfold run, run_mcp_tool. rewrite H. simpl.
  destruct e; reflexivity.
Qed.

(** While the child runs, the call is pending, and only then. *)
Lemma run_mcp_tool_pending p :
  create_subprocess_exec server_path = Spawned p ->
  run = Pending <->
  forall t, (t < fuel)%nat -> p (input_line tool_name tool_args) t = None.
Proof.
  intros H. unfold run, run_mcp_tool, communicate. rewrite H. simpl.
  destruct (wait_exit fuel 0 _) as [x|e'|] eqn:Hw; simpl.
  - split.
    + destruct (negb (returncode x =? 0)).
      * destruct (stderr x); simpl; discriminate.
      * destruct (stdout x); simpl; discriminate.
    + intros Hnone.
      assert (wait_exit fuel 0 (p (input_line tool_name tool_args)) = Pending) as Hp.
      { apply wait_exit_pending. intros t Ht. apply Hnone. lia. }
      congruence.
  - exfalso. eapply wait_exit_not_raise; eassumption.
  - split; [|reflexivity]. intros _ t Ht.
    rewrite wait_exit_pending in Hw. apply Hw. lia.
Qed.

(** A child that exited with a non-zero code: the code and the text of
    its standard error are the returned string. *)
Lemma run_mcp_tool_nonzero p x text :
  create_subprocess_exec server_path = Spawned p ->
  wait_exit fuel 0 (p (input_line tool_name tool_args)) = Ret x ->
  returncode x <> 0 -> stderr x = Utf8 text ->
  run = Ret ("MCP server exited with code " +:+ pretty (returncode x)
             +:+ nl +:+ text).
Proof.
  intros H Hw Hrc Herr. unfold run, run_mcp_tool, communicate. rewrite H. simpl.
  rewrite Hw. simpl.
  destruct (returncode x =? 0) eqn:E; [apply Z.eqb_eq in E; contradiction|].
  simpl. rewrite Herr. reflexivity.
Qed.

(** A child that exited with code 0: its stripped output is returned. *)
Lemma run_mcp_tool_zero p x text :
  create_subprocess_exec server_path = Spawned p ->
  wait_exit fuel 0 (p (input_line tool_name tool_args)) = Ret x ->
  returncode x = 0 -> stdout x = Utf8 text ->
  run = Ret (strip text).
Proof.
  intros H Hw Hrc Hout. unfold run, run_mcp_tool, communicate. rewrite H. simpl.
  rewrite Hw. simpl.
  rewrite Hrc. simpl. rewrite Hout. reflexivity.
Qed.

(** Once the spawn has failed or the child has exited, a string is
    returned. *)
Lemma run_mcp_tool_returns :
  (forall p, create_subprocess_exec server_path = Spawned p ->
             exited (p (input_line tool_name tool_args)) fuel) ->
  exists s, run = Ret s.
Proof.
  intros Hex. destruct run as [s|e|] eqn:Hr.
  - eauto.
  - exfalso. eapply run_mcp_tool_not_raise. exact Hr.
  - exfalso. destruct (create_subprocess_exec server_path) as [e'|p] eqn:Hs.
    + rewrite (run_mcp_tool_spawn_fails e' Hs) in Hr. discriminate.
    + destruct (Hex p eq_refl) as (t & Ht & [y Hy]).
      rewrite (run_mcp_tool_pending p Hs) in Hr.
      rewrite Hr in Hy by assumption. discriminate.
Qed.

End RunMcpTool.

(** ** [handle_messages] *)

Section HandleMessages.

Variable create_subprocess_exec : string -> spawn.
Variables (server_path : string) (fuel : nat).

Local Abbreviation handle :=
  (handle_messages create_subprocess_exec server_path fuel).
Local Abbreviation run_tool :=
  (run_mcp_tool create_subprocess_exec fuel server_path).

(** Every exception is turned into a response. *)
Lemma handle_messages_not_raise request e : handle request <> Raise e.
Proof.
  unfold handle_messages.
  destruct (_ <- request_json request ;; _) as [r|e'|]; simpl;
    [discriminate | destruct e'; discriminate | discriminate].
Qed.

(** An object body without a truthy [session_id] or without a truthy
    [tool_name] is refused with status 400. *)
Lemma handle_messages_missing m :
  truthy (default JNull (m !! "session_id")) = false \/
  truthy (default JNull (m !! "tool_name")) = false ->
  handle {| request_json := Ret (JObj m) |}
  = Ret (error_response "Invalid request: Missing session_id or tool_name" 400).
Proof.
  intros H. unfold handle_messages. simpl.
  change (match m !! "session_id" with Some v => v | None => JNull end)
    with (default JNull (m !! "session_id")).
  change (match m !! "tool_name" with Some v => v | None => JNull end)
    with (default JNull (m !! "tool_name")).
  destruct H as [-> | ->]; simpl; [reflexivity|].
  rewrite orb_true_r. reflexivity.
Qed.

(** A body that passes the check is handed to [run_mcp_tool], with the
    session id put into the arguments; the response is the result. *)
Lemma handle_messages_valid m sid tool a :
  valid_body m sid tool a ->
  handle {| request_json := Ret (JObj m) |}
  = (result <- run_tool tool (<["session_id" := sid]> a) ;;
     Ret (result_response result)).
Proof.
  intros (Hsid & Tsid & Htool & Ttool & Hargs).
  unfold handle_messages. simpl. rewrite Hsid, Htool, Tsid, Ttool. simpl.
  assert (match m !! "arguments" with Some v => v | None => JObj ∅ end = JObj a)
    as ->.
  { destruct Hargs as [[-> ->] | ->]; reflexivity. }
  simpl.
  destruct (run_tool tool _) as [s|e|] eqn:Hr; simpl; try reflexivity.
  exfalso. eapply run_mcp_tool_not_raise. exact Hr.
Qed.

(** A body that passes the check is answered with status 200 and a
    [result], as soon as the spawn has failed or the child has exited. *)
Lemma handle_messages_valid_200 m sid tool a :
  valid_body m sid tool a ->
  (forall p, create_subprocess_exec server_path = Spawned p ->
             exited (p (input_line tool (<["session_id" := sid]> a))) fuel) ->
  exists result,
    handle {| request_json := Ret (JObj m) |} = Ret (result_response result).
Proof.
  intros Hv Hex. rewrite (handle_messages_valid _ _ _ _ Hv).
  destruct (run_mcp_tool_returns create_subprocess_exec fuel server_path tool
              (<["session_id" := sid]> a) Hex) as [s Hs].
  exists s. rewrite Hs. reflexivity.
Qed.

End HandleMessages.

Lemma wait_exit_exits_first fuel c t x :
  exits_first c t x -> (t < fuel)%nat -> wait_exit fuel 0 c = Ret x.
Proof.
  intros [Hsome Hnone] Hlt.
  apply (wait_exit_first fuel 0%nat c t x); [| assumption | assumption].
  intros t' Ht'. apply Hnone. lia.
Qed.

Lemma exits_first_exited c t x fuel :
  exits_first c t x -> (t < fuel)%nat -> exited c fuel.
Proof. intros [Hsome _] Hlt. exists t. split; [assumption | by eexists]. Qed.

Lemma append_assoc (s1 s2 s3 : string) : (s1 +:+ s2) +:+ s3 = s1 +:+ (s2 +:+ s3).
Proof.
  induction s1 as [|c s1 IH]; [reflexivity|].
  change (String c ((s1 +:+ s2) +:+ s3) = String c (s1 +:+ (s2 +:+ s3))).
  f_equal. exact IH.
Qed.

Lemma contains_suffix needle before : contains needle (before +:+ needle) = true.
Proof.
  induction before as [|c before IH]; simpl.
  - assert (String.prefix needle needle = true) as Hp.
    { induction needle as [|a n IHn]; simpl; [reflexivity|].
      destruct (Ascii.ascii_dec a a); [assumption | contradiction]. }
    destruct needle; simpl in *; [reflexivity|]. rewrite Hp. reflexivity.
  - rewrite IH. apply orb_true_r.
Qed.

(** An object body is refused as a client error only for want of a
    truthy [session_id] or [tool_name]. *)
Lemma handle_messages_client_error
    (create_subprocess_exec : string -> spawn) (server_path : string) (fuel : nat)
    (m : gmap string json) (r : JSONResponse) :
  handle_messages create_subprocess_exec server_path fuel
    {| request_json := Ret (JObj m) |} = Ret r ->
  400 <= status_code r < 500 ->
  truthy (default JNull (m !! "session_id")) = false \/
  truthy (default JNull (m !! "tool_name")) = false.
Proof.
  intros H Hst. unfold handle_messages in H. simpl in H.
  change (match m !! "session_id" with Some v => v | None => JNull end)
    with (default JNull (m !! "session_id")) in H.
  change (match m !! "tool_name" with Some v => v | None => JNull end)
    with (default JNull (m !! "tool_name")) in H.
  destruct (truthy (default JNull (m !! "session_id"))); [|by left].
  destruct (truthy (default JNull (m !! "tool_name"))); [|by right].
  exfalso. simpl in H.
  destruct (match m !! "arguments" with Some v => v | None => JObj ∅ end)
    as [|b|z|f|s|l|a]; simpl in H;
    try (injection H as <-; simpl in Hst; lia).
  destruct (run_mcp_tool _ _ _ _ _) as [s|e|] eqn:Hr; simpl in H.
  - injection H as <-. simpl in Hst. lia.
  - eapply run_mcp_tool_not_raise. exact Hr.
  - discriminate.
Qed.

(** ** Sessions are not checked (C1) *)

(** C1, counterexample.  With no session ever issued, a POST that names a
    session id is run and answered with status 200 and a result; so is a
    POST that names the id of a session whose stream has been cancelled. *)
Lemma unissued_session_is_served :
  let env := exits_at 0 {| returncode := 0; stdout := Utf8 "sunny";
                           stderr := Utf8 "" |} in
  let body sid := post [("session_id", JStr sid); ("tool_name", JStr "get_alerts");
                        ("arguments", JObj {["state" := JStr "CA"]})] in
  let r := handle_sse 7 in
  issued [] = [] /\
  handle_messages env "weather_stdio.py" 1 (body "never-issued")
  = Ret (result_response "sunny") /\
  state_after r [Next; Next; Cancel] = Finished /\
  handle_messages env "weather_stdio.py" 1 (body (session_id r))
  = Ret (result_response "sunny").
Proof. vm_compute. repeat split; reflexivity. Qed.

(** C1, as amended.  The dispatcher keeps no record of sessions and looks
    no session id up: [handle_messages] is given the request and nothing
    else.  A POST whose object body has a truthy [session_id], whatever
    value it is and wherever it comes from, and a truthy [tool_name] (and
    whose [arguments] are absent or an object) is dispatched: its response
    is that of running the tool it names with its arguments and its
    session id.  Once the child has exited the response has status 200
    and carries the string of the tool as its [result]; it is never a
    client error.  This is so also for an id that was never issued and for
    the id of a session whose stream has ended.  An object body is
    answered with a client error only when its [session_id] or its
    [tool_name] is missing or falsy. *)
Theorem unissued_session_dispatched
    (create_subprocess_exec : string -> spawn) (server_path : string) (fuel : nat)
    (m : gmap string json) (sid tool : json) (a : gmap string json) :
  valid_body m sid tool a ->
  let handle := handle_messages create_subprocess_exec server_path fuel in
  let run sid' :=
    run_mcp_tool create_subprocess_exec fuel server_path tool
      (<["session_id" := sid']> a) in
  handle {| request_json := Ret (JObj m) |}
  = (result <- run sid ;; Ret (result_response result)) /\
  ((forall p, create_subprocess_exec server_path = Spawned p ->
              exited (p (input_line tool (<["session_id" := sid]> a))) fuel) ->
   exists result,
     run sid = Ret result /\
     handle {| request_json := Ret (JObj m) |} = Ret (result_response result)) /\
  (forall r,
     handle {| request_json := Ret (JObj m) |} = Ret r ->
     status_code r = 200 /\ content r !! "error" = None) /\
  (forall (draws : list Z) (rand : Z) (sgs : list signal)
          (m' : gmap string json) (sid' : string),
     sid' ∉ issued draws \/
     (rand ∈ draws /\ sid' = session_id (handle_sse rand) /\
      state_after (handle_sse rand) sgs = Finished) ->
     valid_body m' (JStr sid') tool a ->
     handle {| request_json := Ret (JObj m') |}
     = (result <- run (JStr sid') ;; Ret (result_response result))) /\
  (forall (m' : gmap string json) (r : JSONResponse),
     handle {| request_json := Ret (JObj m') |} = Ret r ->
     400 <= status_code r < 500 ->
     truthy (default JNull (m' !! "session_id")) = false \/
     truthy (default JNull (m' !! "tool_name")) = false).
Proof.
  intros Hv handle run.
  assert (handle {| request_json := Ret (JObj m) |}
          = (result <- run sid ;; Ret (result_response result))) as Hd
    by exact (handle_messages_valid create_subprocess_exec server_path fuel
                m sid tool a Hv).
  split; [exact Hd|]. split; [|split; [|split]].
  - intros Hex.
    destruct (run_mcp_tool_returns create_subprocess_exec fuel server_path tool
                (<["session_id" := sid]> a) Hex) as [result Hr].
    exists result. split; [exact Hr|]. rewrite Hd. subst run. simpl.
    rewrite Hr. reflexivity.
  - intros r. rewrite Hd. destruct (run sid) as [result|e|]; simpl;
      [|discriminate|discriminate].
    intros [= <-]. split; reflexivity.
  - intros draws rand sgs m' sid' _ Hv'.
    exact (handle_messages_valid create_subprocess_exec server_path fuel
             m' (JStr sid') tool a Hv').
  - apply handle_messages_client_error.
Qed.

Lemma unissued_session_dispatched_witness :
  let env :=
    exits_at 2 {| returncode := 0; stdout := Utf8 "No active alerts for this state.";
                  stderr := Utf8 "" |} in
  let m : gmap string json :=
    <["session_id" := JStr "0000"]> {["tool_name" := JStr "get_alerts"]} in
  handle_messages env "weather_stdio.py" 3 {| request_json := Ret (JObj m) |}
  = (result <- run_mcp_tool env 3 "weather_stdio.py" (JStr "get_alerts")
                 (<["session_id" := JStr "0000"]> ∅) ;;
     Ret (result_response result)) /\
  handle_messages env "weather_stdio.py" 3 {| request_json := Ret (JObj m) |}
  = Ret (result_response "No active alerts for this state.").
Proof.
  intros env m.
  assert (valid_body m (JStr "0000") (JStr "get_alerts") ∅) as Hv.
  { repeat split; try reflexivity. left. split; reflexivity. }
  destruct (unissued_session_dispatched env "weather_stdio.py" 3 m (JStr "0000")
              (JStr "get_alerts") ∅ Hv) as (Hd & _).
  split; [exact Hd | reflexivity].
Defined.

(** ** A failed tool is reported in the result (C2) *)

(** C2, counterexample.  The child exits with code 1 and the text
    "network unreachable" on its standard error: the response has status
    200, a [result] field holding the report, and no [error] field. *)
Lemma failed_tool_has_no_error_field :
  let env := exits_at 0 {| returncode := 1; stdout := Utf8 "";
                           stderr := Utf8 "network unreachable" |} in
  let request := post [("session_id", JStr "s1"); ("tool_name", JStr "get_alerts");
                       ("arguments", JObj {["state" := JStr "CA"]})] in
  exists r,
    handle_messages env "weather_stdio.py" 1 request = Ret r /\
    status_code r = 200 /\
    content r !! "error" = None /\
    content r !! "result"
    = Some (JStr ("MCP server exited with code 1" +:+ nl +:+ "network unreachable")).
Proof. eexists. vm_compute. repeat split; reflexivity. Qed.

(** C2, as amended.  For a body that passes the check, whatever the child
    exits with, the response has status 200 and carries a [result] field
    and no [error] field.  When the exit code is not zero, the result is
    the line "MCP server exited with code N" followed by the text of the
    child's standard error, which it therefore includes; when the exit
    code is zero, the result is the stripped output of the child, also
    when that output tells of a failure of the handler. *)
Theorem tool_failure_is_a_result
    (create_subprocess_exec : string -> spawn) (server_path : string) (fuel : nat)
    (m : gmap string json) (sid tool : json) (a : gmap string json)
    (p : program) (t : nat) (x : exit_info) :
  valid_body m sid tool a ->
  create_subprocess_exec server_path = Spawned p ->
  exits_first (p (input_line tool (<["session_id" := sid]> a))) t x ->
  (t < fuel)%nat ->
  exists result,
    handle_messages create_subprocess_exec server_path fuel
      {| request_json := Ret (JObj m) |}
    = Ret (result_response result) /\
    status_code (result_response result) = 200 /\
    content (result_response result) !! "result" = Some (JStr result) /\
    content (result_response result) !! "error" = None /\
    (forall text,
       returncode x <> 0 -> stderr x = Utf8 text ->
       result = "MCP server exited with code " +:+ pretty (returncode x)
                +:+ nl +:+ text /\
       contains text result = true) /\
    (forall text,
       returncode x = 0 -> stdout x = Utf8 text -> result = strip text).
Proof.
  intros Hv Hs Hx Hlt.
  rewrite (handle_messages_valid _ _ _ _ _ _ _ Hv).
  pose proof (wait_exit_exits_first fuel _ t x Hx Hlt) as Hw.
  destruct (run_mcp_tool_returns create_subprocess_exec fuel server_path tool
              (<["session_id" := sid]> a)) as [s Hr].
  { intros p' Hp'. rewrite Hs in Hp'. injection Hp' as <-.
    eapply exits_first_exited; eassumption. }
  exists s. rewrite Hr. simpl.
  split; [reflexivity|]. split; [reflexivity|]. split; [reflexivity|].
  split; [reflexivity|]. split.
  - intros text Hrc Herr.
    pose proof (run_mcp_tool_nonzero create_subprocess_exec fuel server_path tool
                  (<["session_id" := sid]> a) p x text Hs Hw Hrc Herr) as Hn.
    assert (s = "MCP server exited with code " +:+ pretty (returncode x)
                +:+ nl +:+ text) as -> by congruence.
    split; [reflexivity|].
    rewrite <- !append_assoc. apply contains_suffix.
  - intros text Hrc Hout.
    pose proof (run_mcp_tool_zero create_subprocess_exec fuel server_path tool
                  (<["session_id" := sid]> a) p x text Hs Hw Hrc Hout) as Hz.
    congruence.
Qed.

Lemma tool_failure_is_a_result_witness :
  exists result,
    handle_messages
      (exits_at 4 {| returncode := 1; stdout := Utf8 "";
                     stderr := Utf8 "network unreachable" |})
      "weather_stdio.py" 5
      {| request_json :=
           Ret (JObj (<["session_id" := JStr "s1"]>
                        {["tool_name" := JStr "get_alerts"]})) |}
    = Ret (result_response result) /\
    status_code (result_response result) = 200 /\
    content (result_response result) !! "result" = Some (JStr result) /\
    content (result_response result) !! "error" = None /\
    (forall text,
       1 <> 0 -> Utf8 "network unreachable" = Utf8 text ->
       result = "MCP server exited with code " +:+ pretty 1 +:+ nl +:+ text /\
       contains text result = true) /\
    (forall text, 1 = 0 -> Utf8 "" = Utf8 text -> result = strip text).
Proof.
  apply (tool_failure_is_a_result _ _ _ _ (JStr "s1") (JStr "get_alerts") ∅
           (fun _ now => if (now <? 4)%nat then None
                         else Some {| returncode := 1; stdout := Utf8 "";
                                      stderr := Utf8 "network unreachable" |})
           4%nat
           {| returncode := 1; stdout := Utf8 "";
              stderr := Utf8 "network unreachable" |}).
  - repeat split; try reflexivity. left. split; reflexivity.
  - reflexivity.
  - split; [reflexivity|].
    intros t' Ht'. simpl. destruct (t' <? 4)%nat eqn:E; [reflexivity|].
    apply Nat.ltb_ge in E. lia.
  - lia.
Defined.

(** ** No deadline on the child (C3) *)

(** C3, counterexample.  With a child that never exits there is no
    deadline after which [run_mcp_tool] has returned anything, a timeout
    failure included: the call is pending for ever. *)
Lemma hanging_child_hangs_the_call :
  ~ exists deadline,
      run_mcp_tool never_exits deadline "weather_stdio.py" (JStr "get_alerts")
        {["state" := JStr "CA"]}
      <> Pending.
Proof.
  intros [deadline H]. apply H.
  apply (run_mcp_tool_pending never_exits deadline _ _ _ (fun _ _ => None));
    reflexivity.
Qed.

(** C3, as amended.  [run_mcp_tool] sets no deadline of its own on the
    child.  After a successful spawn the call is pending exactly as long
    as the child has not exited, and it returns a string once the child
    has; if the child never exits, the call never returns, however long
    one waits. *)
Theorem run_mcp_tool_waits_for_exit
    (create_subprocess_exec : string -> spawn) (server_path : string)
    (tool_name : json) (tool_args : gmap string json) (p : program) :
  create_subprocess_exec server_path = Spawned p ->
  (forall fuel,
     run_mcp_tool create_subprocess_exec fuel server_path tool_name tool_args
     = Pending <->
     forall t, (t < fuel)%nat -> p (input_line tool_name tool_args) t = None) /\
  (forall fuel,
     exited (p (input_line tool_name tool_args)) fuel ->
     exists s,
       run_mcp_tool create_subprocess_exec fuel server_path tool_name tool_args
       = Ret s) /\
  ((forall t, p (input_line tool_name tool_args) t = None) ->
   forall fuel,
     run_mcp_tool create_subprocess_exec fuel server_path tool_name tool_args
     = Pending).
Proof.
  intros Hs. split; [|split].
  - intros fuel. apply run_mcp_tool_pending; assumption.
  - intros fuel Hex. apply run_mcp_tool_returns.
    intros p' Hp'. rewrite Hs in Hp'. injection Hp' as <-. assumption.
  - intros Hnone fuel. apply (run_mcp_tool_pending _ _ _ _ _ p Hs).
    intros t _. apply Hnone.
Qed.

Lemma run_mcp_tool_waits_for_exit_witness :
  let x := {| returncode := 0; stdout := Utf8 "sunny"; stderr := Utf8 "" |} in
  let p : program := fun _ now => if (now <? 3)%nat then None else Some x in
  (forall fuel,
     run_mcp_tool (exits_at 3 x) fuel "weather_stdio.py" (JStr "get_alerts") ∅
     = Pending <->
     forall t, (t < fuel)%nat -> p (input_line (JStr "get_alerts") ∅) t = None) /\
  (forall fuel,
     exited (p (input_line (JStr "get_alerts") ∅)) fuel ->
     exists s,
       run_mcp_tool (exits_at 3 x) fuel "weather_stdio.py" (JStr "get_alerts") ∅
       = Ret s) /\
  ((forall t, p (input_line (JStr "get_alerts") ∅) t = None) ->
   forall fuel,
     run_mcp_tool (exits_at 3 x) fuel "weather_stdio.py" (JStr "get_alerts") ∅
     = Pending).
Proof.
  intros x p.
  apply (run_mcp_tool_waits_for_exit (exits_at 3 x) "weather_stdio.py"
           (JStr "get_alerts") ∅ p).
  reflexivity.
Defined.

(** ** The push channel (C4, C5) *)

Lemma drive_app url st sgs1 sgs2 :
  drive url st (sgs1 ++ sgs2)%list
  = let '(st1, out1) := drive url st sgs1 in
    let '(st2, out2) := drive url st1 sgs2 in
    (st2, (out1 ++ out2)%list).
Proof.
  revert st. induction sgs1 as [|sg sgs1 IH]; intros st; simpl.
  - destruct (drive url st sgs2). reflexivity.
  - destruct (event_stream url st sg) as [st' c]. rewrite IH.
    destruct (drive url st' sgs1) as [st1 out1].
    destruct (drive url st1 sgs2) as [st2 out2].
    by rewrite app_assoc.
Qed.

(** Once the generator has been started it yields nothing more. *)
Lemma drive_started url st sgs :
  st <> NotStarted ->
  snd (drive url st sgs) = [] /\ fst (drive url st sgs) <> NotStarted.
Proof.
  revert st. induction sgs as [|sg sgs IH]; intros st Hst; simpl.
  - split; [reflexivity | assumption].
  - destruct st as [| |n|]; [contradiction| | |].
    + destruct sg; simpl;
        match goal with
        | |- context [drive url ?s sgs] =>
            destruct (IH s ltac:(discriminate)) as [H1 H2];
            destruct (drive url s sgs); simpl in *; by subst
        end.
    + destruct sg; simpl; try destruct n as [|[|n]]; simpl;
        match goal with
        | |- context [drive url ?s sgs] =>
            destruct (IH s ltac:(discriminate)) as [H1 H2];
            destruct (drive url s sgs); simpl in *; by subst
        end.
    + destruct sg; simpl;
        match goal with
        | |- context [drive url ?s sgs] =>
            destruct (IH s ltac:(discriminate)) as [H1 H2];
            destruct (drive url s sgs); simpl in *; by subst
        end.
Qed.

(** Before it is started a generator lets time pass. *)
Lemma drive_ticks_not_started url k :
  drive url NotStarted (repeat Tick k) = (NotStarted, []).
Proof. induction k as [|k IH]; simpl; [reflexivity | by rewrite IH]. Qed.

(** From the first [Next] on, the endpoint message is all that a
    connection has sent. *)
Lemma sent_from_first_next rand k sgs :
  sent (handle_sse rand) (repeat Tick k ++ Next :: sgs)%list
  = [endpoint_message (messages_url (handle_sse rand))].
Proof.
  unfold sent. simpl. rewrite drive_app, drive_ticks_not_started. simpl.
  destruct (drive_started ("/messages/?session_id=" +:+ Uuid.uuid4 rand)
              AtYield sgs ltac:(discriminate)) as [H _].
  destruct (drive _ AtYield sgs) as [st out]. simpl in *. by subst.
Qed.

(** Whatever happens to a connection, it has sent nothing or the endpoint
    message alone. *)
Lemma sent_at_most_endpoint rand sgs :
  sent (handle_sse rand) sgs = [] \/
  sent (handle_sse rand) sgs = [endpoint_message (messages_url (handle_sse rand))].
Proof.
  unfold sent. simpl. set (url := "/messages/?session_id=" +:+ Uuid.uuid4 rand).
  induction sgs as [|sg sgs IH]; simpl; [by left|].
  destruct sg; simpl.
  - right. destruct (drive_started url AtYield sgs ltac:(discriminate)) as [H _].
    destruct (drive url AtYield sgs). simpl in *. by subst.
  - destruct (drive url NotStarted sgs). simpl in *. assumption.
  - left. destruct (drive_started url Finished sgs ltac:(discriminate)) as [H _].
    destruct (drive url Finished sgs). simpl in *. by subst.
  - left. destruct (drive_started url Finished sgs ltac:(discriminate)) as [H _].
    destruct (drive url Finished sgs). simpl in *. by subst.
Qed.

(** The sleep of 60 time units is started again each time it ends. *)
Lemma drive_sleeping url n :
  drive url (Sleeping 60) (repeat Tick n)
  = (Sleeping (60 - n mod 60)%nat, []).
Proof.
  induction n as [|n IH]; [reflexivity|].
  change (repeat Tick (S n)) with (Tick :: repeat Tick n).
  rewrite repeat_cons, drive_app, IH.
  cbn [drive event_stream app].
  assert (n mod 60 < 60)%nat as Hlt by (apply Nat.mod_upper_bound; lia).
  assert (S n mod 60 = (n mod 60 + 1) mod 60)%nat as Hs.
  { rewrite <- Nat.add_1_r. symmetry. apply Nat.Div0.add_mod_idemp_l. }
  destruct (60 - n mod 60)%nat as [|[|k]] eqn:E; f_equal; f_equal.
  - lia.
  - assert (n mod 60 = 59)%nat as Hn by lia.
    rewrite Hs, Hn. reflexivity.
  - assert (n mod 60 = 58 - k)%nat as Hn by lia.
    rewrite Hs, Hn, Nat.mod_small by lia. lia.
Qed.

(** C4, counterexample.  A connection that has stayed open for 600 time
    units after the handshake is still asleep in its loop and has sent
    the endpoint message and nothing else: no keep-alive at any of the
    ten 60-unit marks. *)
Lemma no_keep_alive_in_600_units :
  let r := handle_sse 0 in
  let sgs := (Next :: Next :: repeat Tick 600)%list in
  state_after r sgs = Sleeping 60 /\
  sent r sgs = [endpoint_message (messages_url r)] /\
  length (sent r sgs) = 1%nat.
Proof. vm_compute. repeat split; reflexivity. Qed.

(** C4, as amended.  After the handshake event the stream handler sends
    nothing more on the push channel.  It keeps the connection open by
    sleeping 60 time units over and over, for as long as the connection is
    neither cancelled nor hit by an error; cancellation or an error ends
    the stream. *)
Theorem event_stream_sleeps_without_sending (rand : Z) (n : nat) (sgs : list signal) :
  let r := handle_sse rand in
  let alive := (Next :: Next :: repeat Tick n)%list in
  sent r alive = [endpoint_message (messages_url r)] /\
  state_after r alive = Sleeping (60 - n mod 60)%nat /\
  state_after r (alive ++ [Cancel])%list = Finished /\
  (forall e, state_after r (alive ++ [Throw e])%list = Finished) /\
  sent r (Next :: sgs) = [endpoint_message (messages_url r)].
Proof.
  intros r alive. split; [|split; [|split; [|split]]].
  - apply (sent_from_first_next rand 0).
  - unfold state_after, alive. simpl. rewrite drive_sleeping. reflexivity.
  - unfold state_after, alive. rewrite drive_app. simpl.
    rewrite drive_sleeping. reflexivity.
  - intros e. unfold state_after, alive. rewrite drive_app. simpl.
    rewrite drive_sleeping. reflexivity.
  - apply (sent_from_first_next rand 0).
Qed.

(** *** The text of the handshake *)

Lemma escape_char_plain c : plain c = true -> escape_char c = String c "".
Proof.
  destruct c as [[] [] [] [] [] [] [] []]; vm_compute; intros H;
    first [reflexivity | discriminate H].
Qed.

Lemma escape_plain s : all_plain s = true -> escape s = s.
Proof.
  induction s as [|c s IH]; simpl; [reflexivity|].
  intros [Hc Hs]%andb_prop. rewrite (escape_char_plain c Hc), (IH Hs). reflexivity.
Qed.

Lemma all_plain_app s1 s2 :
  all_plain (s1 +:+ s2) = all_plain s1 && all_plain s2.
Proof.
  induction s1 as [|c s1 IH]; [reflexivity|].
  change (all_plain (String c (s1 +:+ s2)) = all_plain (String c s1) && all_plain s2).
  simpl. rewrite IH. apply andb_assoc.
Qed.

Lemma all_plain_substring s a b :
  all_plain s = true -> all_plain (substring a b s) = true.
Proof.
  revert a b. induction s as [|c s IH]; intros a b H.
  - destruct a, b; reflexivity.
  - simpl in H. apply andb_prop in H as [Hc Hs].
    destruct a as [|a]; [destruct b as [|b]|]; simpl.
    + reflexivity.
    + rewrite Hc. simpl. apply IH. assumption.
    + apply IH. assumption.
Qed.

Lemma hex_digit_plain n : (n < 16)%N -> plain (hex_digit n) = true.
Proof.
  intros H.
  destruct n as [|p]; [reflexivity|].
  do 4 (destruct p as [p|p|]; try reflexivity); lia.
Qed.

Lemma all_plain_hex_go digits i acc :
  all_plain acc = true -> all_plain (Uuid.hex_go digits i acc) = true.
Proof.
  revert i acc. induction digits as [|d IH]; intros i acc H; simpl; [assumption|].
  apply IH. simpl. rewrite H, andb_true_r.
  apply hex_digit_plain.
  pose proof (Z.mod_pos_bound i 16 ltac:(lia)). lia.
Qed.

Lemma all_plain_uuid4 r : all_plain (Uuid.uuid4 r) = true.
Proof.
  unfold Uuid.uuid4, Uuid.str, Uuid.dashed, Uuid.hex32.
  assert (all_plain (Uuid.hex_go 32 (Uuid.version4 r) "") = true) as H
    by (apply all_plain_hex_go; reflexivity).
  rewrite !all_plain_app, !all_plain_substring by assumption. reflexivity.
Qed.

(** The endpoint message of a connection, letter by letter. *)
Lemma endpoint_message_text rand :
  endpoint_message (messages_url (handle_sse rand))
  = "event: endpoint" +:+ nl +:+ "data: {" +:+ dquote +:+ "messages_url" +:+ dquote
    +:+ ": " +:+ dquote +:+ "/messages/?session_id=" +:+ session_id (handle_sse rand)
    +:+ dquote +:+ "}" +:+ nl +:+ nl.
Proof.
  unfold endpoint_message, dumps_singleton, dumps_str. simpl messages_url.
  simpl session_id.
  rewrite (escape_plain ("/messages/?session_id=" +:+ Uuid.uuid4 rand)).
  - change (escape "messages_url") with "messages_url".
    rewrite !append_assoc. reflexivity.
  - rewrite all_plain_app, all_plain_uuid4. reflexivity.
Qed.

(** C5.  On every connection the stream sends exactly one event of type
    [endpoint], and sends it first: once the consumer has asked for the
    first chunk the endpoint message is all that has been sent, whatever
    follows, and no schedule makes the stream send anything else.  Its
    data line is the JSON object with the one key [messages_url], whose
    value is the path [/messages/] with the session id as the query
    parameter [session_id]. *)
Theorem handshake_is_first_and_only (rand : Z) (k : nat) (sgs : list signal) :
  let r := handle_sse rand in
  let handshake :=
    "event: endpoint" +:+ nl +:+ "data: {" +:+ dquote +:+ "messages_url" +:+ dquote
    +:+ ": " +:+ dquote +:+ "/messages/?session_id=" +:+ session_id r
    +:+ dquote +:+ "}" +:+ nl +:+ nl in
  sent r (repeat Tick k ++ Next :: sgs)%list = [handshake] /\
  (sent r sgs = [] \/ sent r sgs = [handshake]) /\
  messages_url r = "/messages/?session_id=" +:+ session_id r /\
  media_type r = "text/event-stream".
Proof.
  intros r handshake.
  assert (endpoint_message (messages_url r) = handshake) as <-
    by apply endpoint_message_text.
  split; [|split; [|split]].
  - apply sent_from_first_next.
  - apply sent_at_most_endpoint.
  - reflexivity.
  - reflexivity.
Qed.

(** ** Session ids (C8) *)
















(** ** Refused requests (C6, C10) *)

(** What does hold of refused requests: a body that is not JSON, and an
    object body without [session_id] or without [tool_name], are answered
    with status 400 and an [error] text; the text for a missing field
    names both fields. *)
Lemma malformed_or_incomplete_is_400
    (create_subprocess_exec : string -> spawn) (server_path : string) (fuel : nat) :
  (forall msg,
     handle_messages create_subprocess_exec server_path fuel
       {| request_json := Raise (JSONDecodeError msg) |}
     = Ret (error_response "Invalid JSON" 400)) /\
  (forall m,
     m !! "session_id" = None \/ m !! "tool_name" = None ->
     handle_messages create_subprocess_exec server_path fuel
       {| request_json := Ret (JObj m) |}
     = Ret (error_response "Invalid request: Missing session_id or tool_name" 400)) /\
  contains "session_id" "Invalid request: Missing session_id or tool_name" = true /\
  contains "tool_name" "Invalid request: Missing session_id or tool_name" = true.
Proof.
  split; [|split; [|split]]; try reflexivity.
  intros m H. apply handle_messages_missing.
  destruct H as [-> | ->]; [left | right]; reflexivity.
Qed.

(** C6.  The code at the inputs that break the claim.  A body that is
    well-formed JSON but not an object (such as the empty array) has
    neither a [session_id] nor a [tool_name] field, and it has no [get]
    either: the [AttributeError] falls to the last handler, and the
    response is not a 4xx client error but status 500 with the text of the
    exception. *)
Theorem non_object_body_is_answered_500
    (create_subprocess_exec : string -> spawn) (server_path : string) (fuel : nat)
    (data : json) :
  (forall m, data <> JObj m) ->
  handle_messages create_subprocess_exec server_path fuel
    {| request_json := Ret data |}
  = Ret (error_response
           ("Error processing message: '" +:+ type_name data
            +:+ "' object has no attribute 'get'") 500).
Proof.
  intros H. destruct data as [|b|z|f|s|l|m]; try reflexivity.
  exfalso. by eapply H.
Qed.

Lemma non_object_body_is_answered_500_witness :
  handle_messages never_exits "weather_stdio.py" 1
    {| request_json := Ret (JArr []) |}
  = Ret (error_response
           "Error processing message: 'list' object has no attribute 'get'" 500).
Proof.
  apply (non_object_body_is_answered_500 never_exits "weather_stdio.py" 1 (JArr [])).
  intros m. discriminate.
Defined.

(** C10.  [session_id] and [tool_name] are read at the top level of the
    body only: a body of the shape the repository's own client posts,
    [{"jsonrpc": .., "method": .., "params": ..}], is refused with status
    400 whatever [params] holds, and so is any object body that has the
    two fields under [params] but not at the top level.  For a body that
    passes the check, absent [arguments] are the empty mapping, and the
    arguments handed to [run_mcp_tool] hold the session id of the body
    under [session_id], whatever the caller had put under that key. *)
Theorem fields_are_read_at_top_level
    (create_subprocess_exec : string -> spawn) (server_path : string) (fuel : nat) :
  (forall jsonrpc method params : json,
     handle_messages create_subprocess_exec server_path fuel
       (post [("jsonrpc", jsonrpc); ("method", method); ("params", params)])
     = Ret (error_response "Invalid request: Missing session_id or tool_name" 400)) /\
  (forall (m p : gmap string json),
     m !! "params" = Some (JObj p) ->
     is_Some (p !! "session_id") -> is_Some (p !! "tool_name") ->
     m !! "session_id" = None \/ m !! "tool_name" = None ->
     handle_messages create_subprocess_exec server_path fuel
       {| request_json := Ret (JObj m) |}
     = Ret (error_response "Invalid request: Missing session_id or tool_name" 400)) /\
  (forall (m : gmap string json) (sid tool : json),
     valid_body m sid tool ∅ -> m !! "arguments" = None ->
     handle_messages create_subprocess_exec server_path fuel
       {| request_json := Ret (JObj m) |}
     = (result <- run_mcp_tool create_subprocess_exec fuel server_path tool
                    {["session_id" := sid]} ;;
        Ret (result_response result))) /\
  (forall (m : gmap string json) (sid tool : json) (a : gmap string json),
     valid_body m sid tool a -> m !! "arguments" = Some (JObj a) ->
     handle_messages create_subprocess_exec server_path fuel
       {| request_json := Ret (JObj m) |}
     = (result <- run_mcp_tool create_subprocess_exec fuel server_path tool
                    (<["session_id" := sid]> a) ;;
        Ret (result_response result)) /\
     (<["session_id" := sid]> a) !! "session_id" = Some sid /\
     forall k, k <> "session_id" -> (<["session_id" := sid]> a) !! k = a !! k).
Proof.
  split; [|split; [|split]].
  - intros jsonrpc method params. apply handle_messages_missing. left.
    reflexivity.
  - intros m p _ _ _ H. apply handle_messages_missing.
    destruct H as [-> | ->]; [left | right]; reflexivity.
  - intros m sid tool Hv _.
    rewrite (handle_messages_valid _ _ _ _ _ _ _ Hv).
    rewrite insert_empty. reflexivity.
  - intros m sid tool a Hv _. split; [|split].
    + apply (handle_messages_valid _ _ _ _ _ _ _ Hv).
    + apply lookup_insert_eq.
    + intros k Hk. apply lookup_insert_ne. congruence.
Qed.

(** ** [run_mcp_tool] never raises (C9) *)

(** C9.  [run_mcp_tool] never raises: a failed spawn (the file that is not
    found, or any other exception), a child that exits with any code and
    with any bytes on its pipes, all end in a returned string.  So a body
    that has passed the check of [handle_messages] is never answered with
    the status 500 of the last handler: the response, once there is one,
    has status 200 and carries the result. *)
Theorem run_mcp_tool_returns_a_string
    (create_subprocess_exec : string -> spawn) (server_path : string) (fuel : nat)
    (tool_name : json) (tool_args : gmap string json) :
  (forall e,
     run_mcp_tool create_subprocess_exec fuel server_path tool_name tool_args
     <> Raise e) /\
  (forall e,
     create_subprocess_exec server_path = SpawnFails e ->
     exists s,
       run_mcp_tool create_subprocess_exec fuel server_path tool_name tool_args
       = Ret s) /\
  (forall p,
     create_subprocess_exec server_path = Spawned p ->
     exited (p (input_line tool_name tool_args)) fuel ->
     exists s,
       run_mcp_tool create_subprocess_exec fuel server_path tool_name tool_args
       = Ret s) /\
  (forall (m : gmap string json) (sid : json) (a : gmap string json) r,
     valid_body m sid tool_name a ->
     handle_messages create_subprocess_exec server_path fuel
       {| request_json := Ret (JObj m) |} = Ret r ->
     status_code r = 200 /\ exists result, r = result_response result).
Proof.
  split; [|split; [|split]].
  - intros e. apply run_mcp_tool_not_raise.
  - intros e He. rewrite (run_mcp_tool_spawn_fails _ _ _ _ _ e He). eauto.
  - intros p Hp Hex. apply run_mcp_tool_returns.
    intros p' Hp'. rewrite Hp in Hp'. injection Hp' as <-. assumption.
  - intros m sid a r Hv. rewrite (handle_messages_valid _ _ _ _ _ _ _ Hv).
    destruct (run_mcp_tool _ _ _ _ _) as [s|e|] eqn:Hr; simpl.
    + intros [= <-]. split; [reflexivity | eauto].
    + discriminate.
    + discriminate.
Qed.

(** ** A tool the handler program does not know (C7) *)

Section UnknownTool.

Variable get_forecast get_alerts : gmap string json -> string * res string.
Variable traceback : exn -> string.

(** A request for a tool that is neither of the two leaves the variable
    [results] unbound, and reading it ends the program. *)
Lemma serve_request_unknown_tool (m : gmap string json) (tool : json)
    (st : Weather.proc_state) :
  m !! "session_id" = None ->
  m !! "tool_name" = Some tool ->
  eq_str tool "get_forecast" = false -> eq_str tool "get_alerts" = false ->
  Weather.results st = None ->
  Weather.serve_request get_forecast get_alerts (inr (JObj m)) st
  = (st, Raise unbound_results).
Proof.
  intros Hsid Htool Hf Ha Hres.
  unfold Weather.serve_request, Weather.mbind, Weather.lift, Weather.loads,
    Weather.mret, Weather.read_results, dict_get.
  rewrite Hsid, Htool, Hf, Ha, Hres. reflexivity.
Qed.

Lemma main_unknown_tool (tool : json) (args : gmap string json) :
  eq_str tool "get_forecast" = false -> eq_str tool "get_alerts" = false ->
  Weather.main get_forecast get_alerts traceback
    [Weather.Bytes (inr (input_line tool args))]
  = Ret {| returncode := 1; stdout := Utf8 "";
           stderr := Utf8 (traceback unbound_results) |}.
Proof.
  intros Hf Ha. unfold Weather.main, Weather.main_loop, Weather.try_json.
  unfold Weather.mbind at 1. unfold Weather.lift at 1, Weather.readline.
  unfold Weather.mbind at 1. unfold input_line.
  rewrite serve_request_unknown_tool with (tool := tool); try assumption;
    reflexivity.
Qed.

Variable dumps : json -> string.

(** The line that the program reads when the relay sends a request. *)
Lemma request_line_fits (input : json) :
  fits dumps input -> Weather.request_line dumps input = Weather.Bytes (inr input).
Proof.
  unfold fits, Weather.request_line. intros H.
  destruct (Z.ltb_spec Weather.limit (Z.of_nat (String.length (dumps input))));
    [lia | reflexivity].
Qed.

Lemma request_line_over_limit (input : json) :
  ~ fits dumps input ->
  Weather.request_line dumps input
  = Weather.OverLimit "Separator is not found, and chunk exceed the limit".
Proof.
  unfold fits, Weather.request_line. intros H.
  destruct (Z.ltb_spec Weather.limit (Z.of_nat (String.length (dumps input))));
    [reflexivity | lia].
Qed.

(** The program exits [delay] ticks after the spawn, with what [main]
    ends in. *)
Lemma as_program_exits_first (delay : nat) (input : json) (x : exit_info) :
  Weather.main get_forecast get_alerts traceback [Weather.request_line dumps input]
  = Ret x ->
  exits_first
    (Weather.as_program get_forecast get_alerts traceback dumps delay input)
    delay x.
Proof.
  intros Hmain. unfold exits_first, Weather.as_program. rewrite Hmain. split.
  - rewrite Nat.ltb_irrefl. reflexivity.
  - intros t' Ht'. apply Nat.ltb_lt in Ht'. rewrite Ht'. reflexivity.
Qed.

End UnknownTool.

(** C7, counterexample.  The relay stands in front of the handler
    program and is asked for the tool [get_weather].  The relay answers
    with the success response: status 200, a [result] field that holds the
    report of the program, and no [error] field. *)
Lemma unknown_tool_is_answered_200 :
  let handler := fun _ : gmap string json => ("", Ret "sunny") in
  let traceback := fun e => "UnboundLocalError: " +:+ exn_str e in
  let dumps := fun _ : json =>
    "{" +:+ dumps_str "tool_name" +:+ ": " +:+ dumps_str "get_weather" +:+ ", "
    +:+ dumps_str "arguments" +:+ ": " +:+ dumps_singleton "session_id" "s1"
    +:+ "}" in
  let env := weather_env handler handler traceback dumps 2 in
  let request := post [("session_id", JStr "s1"); ("tool_name", JStr "get_weather");
                       ("arguments", JObj ∅)] in
  exists r,
    handle_messages env "weather_stdio.py" 3 request = Ret r /\
    status_code r = 200 /\
    content r !! "error" = None /\
    content r !! "result"
    = Some (JStr ("MCP server exited with code 1" +:+ nl
                  +:+ traceback unbound_results)).
Proof. eexists. vm_compute. repeat split; reflexivity. Qed.

(** C7, as amended.  A POST that passes the check and names a tool that
    is neither [get_forecast] nor [get_alerts] is not refused, and the
    relay does not fail on it: the name of the tool is not checked, the
    request is handed to a child like any other, and the response, once
    the child has exited, has status 200, a [result] field and no [error]
    field.  [handle_messages] raises for no request at all, so the relay
    goes on to answer the requests that follow. *)
Theorem unknown_tool_is_reported_in_result
    (create_subprocess_exec : string -> spawn) (server_path : string) (fuel : nat)
    (m : gmap string json) (sid tool : json) (a : gmap string json) :
  valid_body m sid tool a ->
  eq_str tool "get_forecast" = false -> eq_str tool "get_alerts" = false ->
  let handle := handle_messages create_subprocess_exec server_path fuel in
  let args := <["session_id" := sid]> a in
  handle {| request_json := Ret (JObj m) |}
  = (result <- run_mcp_tool create_subprocess_exec fuel server_path tool args ;;
     Ret (result_response result)) /\
  (forall r,
     handle {| request_json := Ret (JObj m) |} = Ret r ->
     status_code r = 200 /\ content r !! "error" = None /\
     exists result, content r !! "result" = Some (JStr result)) /\
  ((forall p, create_subprocess_exec server_path = Spawned p ->
              exited (p (input_line tool args)) fuel) ->
   exists result,
     handle {| request_json := Ret (JObj m) |} = Ret (result_response result)) /\
  (forall request e, handle request <> Raise e).
Proof.
  intros Hv _ _ handle args.
  assert (handle {| request_json := Ret (JObj m) |}
          = (result <- run_mcp_tool create_subprocess_exec fuel server_path
                         tool args ;;
             Ret (result_response result))) as Hd
    by exact (handle_messages_valid create_subprocess_exec server_path fuel
                m sid tool a Hv).
  split; [exact Hd|]. split; [|split].
  - intros r. rewrite Hd.
    destruct (run_mcp_tool _ _ _ _ _) as [result|e|]; simpl;
      [|discriminate|discriminate].
    intros [= <-]. split; [reflexivity|]. split; [reflexivity|].
    exists result. reflexivity.
  - intros Hex. eapply handle_messages_valid_200; eassumption.
  - intros request e. apply handle_messages_not_raise.
Qed.

Lemma unknown_tool_is_reported_in_result_witness :
  let env := exits_at 2 {| returncode := 1; stdout := Utf8 "";
                           stderr := Utf8 "Traceback" |} in
  let m : gmap string json :=
    <["session_id" := JStr "s1"]> {["tool_name" := JStr "get_weather"]} in
  handle_messages env "weather_stdio.py" 3 {| request_json := Ret (JObj m) |}
  = (result <- run_mcp_tool env 3 "weather_stdio.py" (JStr "get_weather")
                 (<["session_id" := JStr "s1"]> ∅) ;;
     Ret (result_response result)) /\
  (forall request e, handle_messages env "weather_stdio.py" 3 request <> Raise e).
Proof.
  intros env m.
  destruct (unknown_tool_is_reported_in_result env "weather_stdio.py" 3 m
              (JStr "s1") (JStr "get_weather") ∅) as (Hd & _ & _ & Hn).
  - repeat split; try reflexivity. left. split; reflexivity.
  - reflexivity.
  - reflexivity.
  - split; [exact Hd | exact Hn].
Defined.

(** * Further properties of the relay *)

(** ** The shape of every response *)

(** X1.  Whatever is posted, [handle_messages] does not raise, and its
    response is one of five: the result of the tool with status 200, the
    text "Invalid JSON" or the text "Invalid request: Missing session_id
    or tool_name" with status 400, or the text of an exception after
    "Error processing message: " with status 500.  A response never
    carries both a [result] and an [error]. *)
Theorem response_is_result_or_error
    (create_subprocess_exec : string -> spawn) (server_path : string) (fuel : nat)
    (request : Request) :
  let response := handle_messages create_subprocess_exec server_path fuel request in
  response = Pending \/
  (exists result, response = Ret (result_response result)) \/
  response = Ret (error_response "Invalid JSON" 400) \/
  response
  = Ret (error_response "Invalid request: Missing session_id or tool_name" 400) \/
  (exists e,
     response
     = Ret (error_response ("Error processing message: " +:+ exn_str e) 500)).
Proof.
  intros response. subst response. unfold handle_messages.
  destruct (request_json request) as [data|e|]; simpl.
  - destruct data as [|b|z|f|s|l|m]; simpl;
      try (right; right; right; right; eexists (AttributeError _); reflexivity).
    destruct (negb (truthy _) || negb (truthy _)); simpl.
    { right. right. right. left. reflexivity. }
    destruct (match m !! "arguments" with Some v => v | None => JObj ∅ end)
      as [|b|z|f|s|l|a]; simpl;
      try (right; right; right; right; eexists (TypeError _); reflexivity).
    destruct (run_mcp_tool _ _ _ _ _) as [s|e|] eqn:Hr; simpl.
    + right. left. eexists. reflexivity.
    + exfalso. eapply run_mcp_tool_not_raise. exact Hr.
    + left. reflexivity.
  - destruct e as [msg|msg|msg|msg|msg|msg|msg]; simpl;
      first [ right; right; left; reflexivity
            | right; right; right; right; eexists (OtherError msg); reflexivity ].
  - left. reflexivity.
Qed.

(** ** Arguments that are not an object *)

(** X2.  When [arguments] is present but is not an object (null, an array,
    a string, a number), a body with a truthy [session_id] and [tool_name]
    is answered with status 500 and the text of the [TypeError] of the
    item assignment; the tool is not run, so the answer is there at once,
    whatever the child would do.  The check of the two fields comes first:
    without a truthy [session_id] the same body is answered with 400. *)
Theorem arguments_must_be_an_object
    (create_subprocess_exec : string -> spawn) (server_path : string) (fuel : nat)
    (m : gmap string json) (sid tool v : json) :
  m !! "tool_name" = Some tool -> truthy tool = true ->
  m !! "arguments" = Some v -> (forall a, v <> JObj a) ->
  (m !! "session_id" = Some sid -> truthy sid = true ->
   handle_messages create_subprocess_exec server_path fuel
     {| request_json := Ret (JObj m) |}
   = Ret (error_response
            ("Error processing message: " +:+ item_assignment_error v) 500)) /\
  (truthy (default JNull (m !! "session_id")) = false ->
   handle_messages create_subprocess_exec server_path fuel
     {| request_json := Ret (JObj m) |}
   = Ret (error_response "Invalid request: Missing session_id or tool_name" 400)).
Proof.
  intros Htool Ttool Hargs Hv. split.
  - intros Hsid Tsid. unfold handle_messages. simpl.
    rewrite Hsid, Htool, Hargs, Tsid, Ttool. simpl.
    destruct v as [|b|z|f|s|l|a]; try reflexivity. exfalso. by eapply Hv.
  - intros Hsid. apply handle_messages_missing. by left.
Qed.

Lemma arguments_must_be_an_object_witness :
  let m : gmap string json :=
    <["session_id" := JStr "s1"]>
      (<["tool_name" := JStr "get_alerts"]> {["arguments" := JNull]}) in
  (m !! "session_id" = Some (JStr "s1") -> truthy (JStr "s1") = true ->
   handle_messages never_exits "weather_stdio.py" 0
     {| request_json := Ret (JObj m) |}
   = Ret (error_response
            ("Error processing message: " +:+ item_assignment_error JNull) 500)) /\
  (truthy (default JNull (m !! "session_id")) = false ->
   handle_messages never_exits "weather_stdio.py" 0
     {| request_json := Ret (JObj m) |}
   = Ret (error_response "Invalid request: Missing session_id or tool_name" 400)).
Proof.
  intros m.
  apply (arguments_must_be_an_object never_exits "weather_stdio.py" 0 m
           (JStr "s1") (JStr "get_alerts") JNull).
  - reflexivity.
  - reflexivity.
  - reflexivity.
  - intros a. discriminate.
Defined.

(** ** A spawn that fails *)

(** X3.  When the interpreter cannot be spawned, a body that passes the
    check is answered at once, with status 200 and as [result] the text
    "Error: Server file not found at" and the path for a
    [FileNotFoundError], and "Error running MCP server:" and the text of
    the exception for any other. *)
Theorem failed_spawn_is_a_result
    (create_subprocess_exec : string -> spawn) (server_path : string) (fuel : nat)
    (m : gmap string json) (sid tool : json) (a : gmap string json) (e : exn) :
  valid_body m sid tool a ->
  create_subprocess_exec server_path = SpawnFails e ->
  handle_messages create_subprocess_exec server_path fuel
    {| request_json := Ret (JObj m) |}
  = Ret (result_response
           match e with
           | FileNotFoundError _ =>
               "Error: Server file not found at " +:+ server_path
           | _ => "Error running MCP server: " +:+ exn_str e
           end).
Proof.
  intros Hv Hs. rewrite (handle_messages_valid _ _ _ _ _ _ _ Hv).
  rewrite (run_mcp_tool_spawn_fails _ _ _ _ _ e Hs). reflexivity.
Qed.

Lemma failed_spawn_is_a_result_witness :
  handle_messages
    (fun _ => SpawnFails (FileNotFoundError "[Errno 2] No such file or directory"))
    "weather_stdio.py" 0
    {| request_json :=
         Ret (JObj (<["session_id" := JStr "s1"]>
                      {["tool_name" := JStr "get_alerts"]})) |}
  = Ret (result_response ("Error: Server file not found at " +:+ "weather_stdio.py")).
Proof.
  apply (failed_spawn_is_a_result _ "weather_stdio.py" 0 _
           (JStr "s1") (JStr "get_alerts") ∅
           (FileNotFoundError "[Errno 2] No such file or directory")).
  - repeat split; try reflexivity. left. split; reflexivity.
  - reflexivity.
Defined.

(** ** What [run_mcp_tool] returns for an exited child *)

(** X4.  Once the child has exited, the returned string depends on the
    exit code and on one of the two captured streams only.  For exit code
    0 it is the stripped standard output, and the standard error is
    dropped; for any other code it is the line with the code followed by
    the standard error, and the standard output is dropped.  When the
    stream that is read is not UTF-8, the string is "Error running MCP
    server: " followed by the message of the decoder, for either code. *)
Theorem result_reads_one_stream
    (create_subprocess_exec : string -> spawn) (server_path : string) (fuel : nat)
    (tool_name : json) (tool_args : gmap string json)
    (p : program) (t : nat) (x : exit_info) :
  create_subprocess_exec server_path = Spawned p ->
  exits_first (p (input_line tool_name tool_args)) t x ->
  (t < fuel)%nat ->
  run_mcp_tool create_subprocess_exec fuel server_path tool_name tool_args
  = Ret (if returncode x =? 0 then
           match stdout x with
           | Utf8 text => strip text
           | NotUtf8 msg => "Error running MCP server: " +:+ msg
           end
         else
           match stderr x with
           | Utf8 text =>
               "MCP server exited with code " +:+ pretty (returncode x)
               +:+ nl +:+ text
           | NotUtf8 msg => "Error running MCP server: " +:+ msg
           end).
Proof.
  intros Hs Hx Hlt.
  pose proof (wait_exit_exits_first fuel _ t x Hx Hlt) as Hw.
  unfold run_mcp_tool, communicate. rewrite Hs. simpl. rewrite Hw. simpl.
  destruct (returncode x =? 0); simpl.
  - destruct (stdout x); reflexivity.
  - destruct (stderr x); reflexivity.
Qed.

Lemma result_reads_one_stream_witness :
  let x := {| returncode := 0; stdout := NotUtf8 "invalid start byte";
              stderr := Utf8 "warning" |} in
  run_mcp_tool (exits_at 1 x) 2 "weather_stdio.py" (JStr "get_alerts") ∅
  = Ret (if returncode x =? 0 then
           match stdout x with
           | Utf8 text => strip text
           | NotUtf8 msg => "Error running MCP server: " +:+ msg
           end
         else
           match stderr x with
           | Utf8 text =>
               "MCP server exited with code " +:+ pretty (returncode x)
               +:+ nl +:+ text
           | NotUtf8 msg => "Error running MCP server: " +:+ msg
           end).
Proof.
  intros x.
  apply (result_reads_one_stream (exits_at 1 x) "weather_stdio.py" 2
           (JStr "get_alerts") ∅
           (fun _ now => if (now <? 1)%nat then None else Some x) 1%nat x).
  - reflexivity.
  - split; [reflexivity|]. intros t' Ht'.
    assert (t' = 0)%nat as -> by lia. reflexivity.
  - lia.
Defined.

(** ** The stripped output *)

Lemma lstrip_first s c : first_char (lstrip s) = Some c -> py_isspace c = false.
Proof.
  induction s as [|a s IH]; simpl; [discriminate|].
  destruct (py_isspace a) eqn:Ha; [assumption|].
  simpl. intros [= <-]. assumption.
Qed.

Lemma rstrip_first s c : first_char (rstrip s) = Some c -> first_char s = Some c.
Proof.
  destruct s as [|a s]; simpl; [discriminate|].
  destruct (rstrip s); [destruct (py_isspace a)|]; simpl; congruence.
Qed.

Lemma rstrip_last s c : last_char (rstrip s) = Some c -> py_isspace c = false.
Proof.
  induction s as [|a s IH]; simpl; [discriminate|].
  destruct (rstrip s) as [|b r] eqn:Hr.
  - destruct (py_isspace a) eqn:Ha; simpl; [discriminate|].
    intros [= <-]. assumption.
  - intros H. apply IH. exact H.
Qed.

Lemma lstrip_fixed s :
  match first_char s with Some c => py_isspace c = false | None => True end ->
  lstrip s = s.
Proof. destruct s as [|a s]; simpl; [reflexivity|]. by intros ->. Qed.

Lemma rstrip_idem s : rstrip (rstrip s) = rstrip s.
Proof.
  induction s as [|a s IH]; simpl; [reflexivity|].
  destruct (rstrip s) as [|b r] eqn:Hr.
  - destruct (py_isspace a) eqn:Ha; simpl; [reflexivity|]. by rewrite Ha.
  - change (rstrip (String a (String b r))) with
      (match rstrip (String b r) with
       | EmptyString =>
           if py_isspace a then EmptyString else String a EmptyString
       | r' => String a r'
       end).
    rewrite IH. reflexivity.
Qed.

Lemma strip_idem s : strip (strip s) = strip s.
Proof.
  unfold strip. rewrite (lstrip_fixed (rstrip (lstrip s))).
  - apply rstrip_idem.
  - destruct (first_char (rstrip (lstrip s))) as [c|] eqn:Hc; [|exact I].
    apply rstrip_first in Hc. eapply lstrip_first. exact Hc.
Qed.

Lemma lstrip_all_space s : all_space (lstrip s) = all_space s.
Proof.
  induction s as [|a s IH]; simpl; [reflexivity|].
  destruct (py_isspace a) eqn:Ha; simpl; [assumption|]. by rewrite Ha.
Qed.

Lemma rstrip_empty s : rstrip s = "" <-> all_space s = true.
Proof.
  induction s as [|a s IH]; simpl; [done|].
  destruct (rstrip s) as [|b r] eqn:Hr.
  - destruct (py_isspace a); simpl.
    + split; [intros _; by apply IH | reflexivity].
    + split; discriminate.
  - split; [discriminate|]. intros [_ H]%andb_prop.
    apply IH in H. discriminate.
Qed.

Lemma strip_empty s : strip s = "" <-> all_space s = true.
Proof. unfold strip. rewrite rstrip_empty, lstrip_all_space. reflexivity. Qed.

(** X5.  The result of a child that exited with code 0 has no white space
    at either end, stripping it again changes nothing, and it is the
    empty string exactly when the child wrote nothing but white space. *)
Theorem successful_result_is_stripped
    (create_subprocess_exec : string -> spawn) (server_path : string) (fuel : nat)
    (tool_name : json) (tool_args : gmap string json)
    (p : program) (t : nat) (x : exit_info) (text : string) :
  create_subprocess_exec server_path = Spawned p ->
  exits_first (p (input_line tool_name tool_args)) t x ->
  (t < fuel)%nat ->
  returncode x = 0 -> stdout x = Utf8 text ->
  exists result,
    run_mcp_tool create_subprocess_exec fuel server_path tool_name tool_args
    = Ret result /\
    (forall c, first_char result = Some c -> py_isspace c = false) /\
    (forall c, last_char result = Some c -> py_isspace c = false) /\
    strip result = result /\
    (result = "" <-> all_space text = true).
Proof.
  intros Hs Hx Hlt Hrc Hout. exists (strip text).
  pose proof (wait_exit_exits_first fuel _ t x Hx Hlt) as Hw.
  split; [|split; [|split; [|split]]].
  - apply (run_mcp_tool_zero _ _ _ _ _ p x text Hs Hw Hrc Hout).
  - intros c Hc. unfold strip in Hc. apply rstrip_first in Hc.
    eapply lstrip_first. exact Hc.
  - intros c Hc. eapply rstrip_last. exact Hc.
  - apply strip_idem.
  - apply strip_empty.
Qed.

Lemma successful_result_is_stripped_witness :
  let x := {| returncode := 0; stdout := Utf8 (nl +:+ "  sunny " +:+ nl);
              stderr := Utf8 "" |} in
  exists result,
    run_mcp_tool (exits_at 1 x) 2 "weather_stdio.py" (JStr "get_alerts") ∅
    = Ret result /\
    (forall c, first_char result = Some c -> py_isspace c = false) /\
    (forall c, last_char result = Some c -> py_isspace c = false) /\
    strip result = result /\
    (result = "" <-> all_space (nl +:+ "  sunny " +:+ nl) = true).
Proof.
  intros x.
  apply (successful_result_is_stripped (exits_at 1 x) "weather_stdio.py" 2
           (JStr "get_alerts") ∅
           (fun _ now => if (now <? 1)%nat then None else Some x) 1%nat x).
  - reflexivity.
  - split; [reflexivity|]. intros t' Ht'.
    assert (t' = 0)%nat as -> by lia. reflexivity.
  - lia.
  - reflexivity.
  - reflexivity.
Defined.

(** ** The end of a stream *)

Lemma event_stream_ends url st sg :
  sg = Cancel \/ (exists e, sg = Throw e) ->
  event_stream url st sg = (Finished, []).
Proof. intros [-> | [e ->]]; destruct st; reflexivity. Qed.

Lemma drive_finished url sgs : drive url Finished sgs = (Finished, []).
Proof. induction sgs as [|sg sgs IH]; simpl; [reflexivity | by rewrite IH]. Qed.

(** X6.  Cancelling a connection, or throwing an exception into it, ends
    its stream at whatever point it stands: the stream is finished from
    then on, whatever follows, and sends nothing after the signal. *)
Theorem cancellation_ends_the_stream (rand : Z) (before after : list signal) :
  let r := handle_sse rand in
  (state_after r (before ++ Cancel :: after)%list = Finished /\
   sent r (before ++ Cancel :: after)%list = sent r before) /\
  (forall e,
     state_after r (before ++ Throw e :: after)%list = Finished /\
     sent r (before ++ Throw e :: after)%list = sent r before).
Proof.
  intros r.
  assert (forall sg, sg = Cancel \/ (exists e, sg = Throw e) ->
            state_after r (before ++ sg :: after)%list = Finished /\
            sent r (before ++ sg :: after)%list = sent r before) as H.
  { intros sg Hsg. unfold state_after, sent. rewrite drive_app.
    destruct (drive (messages_url r) (body_iterator r) before) as [st out].
    simpl. rewrite (event_stream_ends _ st sg Hsg), drive_finished. simpl.
    split; [reflexivity | by rewrite app_nil_r]. }
  split; [apply H; by left|]. intros e. apply H. right. by exists e.
Qed.

(** X7.  A stream does not end by itself: as long as the connection only
    sees its consumer ask for chunks and time pass, however long, the
    stream is not finished. *)
Theorem stream_does_not_end_by_itself (rand : Z) (sgs : list signal) :
  Forall (fun sg => sg = Next \/ sg = Tick) sgs ->
  state_after (handle_sse rand) sgs <> Finished.
Proof.
  unfold state_after. simpl.
  generalize ("/messages/?session_id=" +:+ Uuid.uuid4 rand). intros url.
  assert (forall st, st <> Finished ->
            Forall (fun sg => sg = Next \/ sg = Tick) sgs ->
            (drive url st sgs).1 <> Finished) as H.
  { induction sgs as [|sg sgs IH]; intros st Hst Hall; simpl; [assumption|].
    apply Forall_cons in Hall as [Hsg Hall].
    destruct (event_stream url st sg) as [st' out] eqn:He.
    specialize (IH st').
    destruct (drive url st' sgs) as [st'' out'] eqn:Hd. simpl in *.
    apply IH; [|assumption].
    destruct Hsg as [-> | ->]; destruct st as [| |[|[|n]]|]; simpl in He;
      injection He as <- _; first [discriminate | contradiction]. }
  apply H. discriminate.
Qed.

Lemma stream_does_not_end_by_itself_witness :
  state_after (handle_sse 7) (Next :: Next :: repeat Tick 100)%list <> Finished.
Proof.
  apply (stream_does_not_end_by_itself 7 (Next :: Next :: repeat Tick 100)%list).
  simpl. repeat (apply Forall_cons_2; [first [by left | by right]|]).
  apply Forall_nil_2.
Defined.

(** * Further properties of the handler program *)

Lemma append_empty_r (s : string) : s +:+ "" = s.
Proof.
  induction s as [|c s IH]; [reflexivity|].
  change (String c (s +:+ "") = String c s). by rewrite IH.
Qed.

(** ** Output is only appended to *)

Lemma appends_mret {A : Type} (a : A) : appends (Weather.mret a).
Proof. intros o e rs. unfold Weather.mret. simpl. by rewrite !append_empty_r. Qed.

Lemma appends_lift {A : Type} (r : res A) : appends (Weather.lift r).
Proof. intros o e rs. unfold Weather.lift. simpl. by rewrite !append_empty_r. Qed.

Lemma appends_write_out s : appends (Weather.write_out s).
Proof. intros o e rs. unfold Weather.write_out. simpl. by rewrite append_empty_r. Qed.

Lemma appends_write_err s : appends (Weather.write_err s).
Proof. intros o e rs. unfold Weather.write_err. simpl. by rewrite append_empty_r. Qed.

Lemma appends_assign_results v : appends (Weather.assign_results v).
Proof.
  intros o e rs. unfold Weather.assign_results. simpl. by rewrite !append_empty_r.
Qed.

Lemma appends_read_results : appends Weather.read_results.
Proof.
  intros o e rs. unfold Weather.read_results. simpl.
  destruct rs; simpl; by rewrite !append_empty_r.
Qed.

Lemma appends_call name f tool_args : appends (Weather.call name f tool_args).
Proof.
  intros o e rs. unfold Weather.call.
  destruct tool_args; try apply appends_lift.
  destruct (f m) as [log r]. simpl. by rewrite append_empty_r.
Qed.

Lemma appends_mbind {A B : Type} (m : Weather.M A) (k : A -> Weather.M B) :
  appends m -> (forall a, appends (k a)) -> appends (Weather.mbind m k).
Proof.
  intros Hm Hk o e rs. unfold Weather.mbind. rewrite (Hm o e rs).
  destruct (m _) as [[o1 e1 rs1] [a|x|]]; simpl; try reflexivity.
  rewrite (Hk a (o +:+ o1) (e +:+ e1) rs1), (Hk a o1 e1 rs1).
  destruct (k a _) as [[o2 e2 rs2] r]. simpl. by rewrite !append_assoc.
Qed.

Lemma appends_try_json {A : Type} (body handler : Weather.M A) :
  appends body -> appends handler -> appends (Weather.try_json body handler).
Proof.
  intros Hb Hh o e rs. unfold Weather.try_json. rewrite (Hb o e rs).
  destruct (body _) as [[o1 e1 rs1] [a|x|]]; simpl; try reflexivity.
  destruct x; try reflexivity.
  rewrite (Hh (o +:+ o1) (e +:+ e1) rs1), (Hh o1 e1 rs1).
  destruct (handler _) as [[o2 e2 rs2] r]. simpl. by rewrite !append_assoc.
Qed.

Lemma appends_serve_request get_forecast get_alerts request :
  appends (Weather.serve_request get_forecast get_alerts request).
Proof.
  unfold Weather.serve_request.
  repeat first
    [ apply appends_mbind; [|intros ?]
    | apply appends_lift | apply appends_mret | apply appends_write_out
    | apply appends_assign_results | apply appends_read_results
    | apply appends_call
    | match goal with
      | |- appends (if ?b then _ else _) => destruct b
      | |- appends (match ?x with _ => _ end) => destruct x
      end ].
Qed.

Lemma appends_main_loop get_forecast get_alerts stdin :
  appends (Weather.main_loop get_forecast get_alerts stdin).
Proof.
  induction stdin as [|l rest IH]; simpl.
  - apply appends_write_err.
  - apply appends_mbind; [apply appends_lift|]. intros request.
    apply appends_mbind; [|intros _; exact IH].
    apply appends_try_json; [apply appends_serve_request|].
    apply appends_mbind; [apply appends_write_out|].
    intros _. apply appends_write_err.
Qed.

(** ** Lines that are not JSON *)

Section HandlerProgram.

Variable get_forecast get_alerts : gmap string json -> string * res string.
Variable traceback : exn -> string.

Local Abbreviation main_loop := (Weather.main_loop get_forecast get_alerts).
Local Abbreviation main := (Weather.main get_forecast get_alerts traceback).
Local Abbreviation serve_request :=
  (Weather.serve_request get_forecast get_alerts).

(** How a run ends depends on the variable [results] it starts with, not
    on what has been written before. *)
Lemma main_loop_outcome stdin o e rs :
  (main_loop stdin
     {| Weather.out := o; Weather.err := e; Weather.results := rs |}).2
  = (main_loop stdin
       {| Weather.out := ""; Weather.err := ""; Weather.results := rs |}).2.
Proof.
  rewrite (appends_main_loop get_forecast get_alerts stdin o e rs).
  destruct (main_loop stdin _) as [st r]. reflexivity.
Qed.

Lemma main_loop_invalid_line msg stdin st :
  main_loop (Weather.Bytes (inl (JSONDecodeError msg)) :: stdin) st
  = main_loop stdin
      {| Weather.out := Weather.out st +:+ "Bad request found" +:+ nl;
         Weather.err := Weather.err st +:+ "Invalid JSON received" +:+ nl;
         Weather.results := Weather.results st |}.
Proof. reflexivity. Qed.

Lemma main_loop_skips_invalid msg before after st :
  (main_loop (before ++ Weather.Bytes (inl (JSONDecodeError msg)) :: after)%list
     st).2
  = (main_loop (before ++ after)%list st).2.
Proof.
  set (invalid := Weather.Bytes (inl (JSONDecodeError msg))).
  revert st. induction before as [|l before IH]; intros st.
  - change ([] ++ invalid :: after)%list with (invalid :: after).
    change ([] ++ after)%list with after.
    subst invalid. rewrite main_loop_invalid_line. destruct st as [o e rs].
    cbn [Weather.out Weather.err Weather.results].
    rewrite main_loop_outcome. symmetry. apply main_loop_outcome.
  - change ((l :: before) ++ invalid :: after)%list
      with (l :: (before ++ invalid :: after))%list.
    change ((l :: before) ++ after)%list with (l :: (before ++ after))%list.
    destruct l as [msg'|loaded]; [reflexivity|].
    simpl. unfold Weather.mbind at 1 4. unfold Weather.lift at 1 2.
    unfold Weather.readline. unfold Weather.mbind at 1 3.
    destruct (Weather.try_json _ _ st) as [st' [[]|x|]]; simpl;
      [apply IH | reflexivity | reflexivity].
Qed.

(** A line that [json.loads] refuses with another exception ends the
    run. *)
Lemma main_loop_refused_line e stdin st :
  (forall msg, e <> JSONDecodeError msg) ->
  main_loop (Weather.Bytes (inl e) :: stdin) st = (st, Raise e).
Proof.
  intros He. destruct e; try reflexivity. by destruct (He msg).
Qed.

(** A line over the limit of the reader ends the run. *)
Lemma main_loop_over_limit msg stdin st :
  main_loop (Weather.OverLimit msg :: stdin) st = (st, Raise (OtherError msg)).
Proof. reflexivity. Qed.

(** The exit code of a run. *)
Lemma main_returncode stdin :
  match main stdin with
  | Ret x =>
      returncode x
      = match (main_loop stdin
                 {| Weather.out := ""; Weather.err := "";
                    Weather.results := None |}).2 with
        | Raise _ => 1
        | _ => 0
        end
  | Raise _ => False
  | Pending =>
      (main_loop stdin
         {| Weather.out := ""; Weather.err := ""; Weather.results := None |}).2
      = Pending
  end.
Proof.
  unfold Weather.main. destruct (main_loop stdin _) as [st [[]|x|]]; reflexivity.
Qed.

(** X8.  A line of the input that [json.loads] refuses with a
    [JSONDecodeError], a text that is not JSON, is reported and skipped.
    At the head of the input it adds the line "Bad request found" to the
    standard output and "Invalid JSON received" to the standard error and
    leaves the rest of the run as it is; anywhere in the input it leaves
    the exit code of the run as it is.  A line that [json.loads] refuses
    with any other exception, as the [UnicodeDecodeError] for bytes that
    are not a text, is not skipped: the program ends there with exit code
    1 and the traceback, and reads nothing after it. *)
Theorem invalid_line_is_skipped (before after : list Weather.line) (msg : string) :
  let invalid := Weather.Bytes (inl (JSONDecodeError msg)) in
  match main after with
  | Ret x =>
      exists o e,
        stdout x = Utf8 o /\ stderr x = Utf8 e /\
        main (invalid :: after)
        = Ret {| returncode := returncode x;
                 stdout := Utf8 ("Bad request found" +:+ nl +:+ o);
                 stderr := Utf8 ("Invalid JSON received" +:+ nl +:+ e) |}
  | Raise _ => False
  | Pending => main (invalid :: after) = Pending
  end /\
  match main (before ++ after)%list, main (before ++ invalid :: after)%list with
  | Ret x, Ret x' => returncode x = returncode x'
  | Pending, Pending => True
  | _, _ => False
  end /\
  (forall e,
     (forall msg', e <> JSONDecodeError msg') ->
     main (Weather.Bytes (inl e) :: after)
     = Ret {| returncode := 1; stdout := Utf8 "";
              stderr := Utf8 (traceback e) |}).
Proof.
  intros invalid. split; [|split].
  - unfold Weather.main. subst invalid. rewrite main_loop_invalid_line.
    cbn [Weather.out Weather.err Weather.results].
    rewrite (appends_main_loop get_forecast get_alerts after
               ("" +:+ "Bad request found" +:+ nl)
               ("" +:+ "Invalid JSON received" +:+ nl) None).
    destruct (main_loop after _) as [[o e rs] [[]|x|]]; simpl.
    + exists o, e. repeat split; reflexivity.
    + exists o, (e +:+ traceback x). repeat split; reflexivity.
    + reflexivity.
  - unfold Weather.main.
    pose proof (main_loop_skips_invalid msg before after
                  {| Weather.out := ""; Weather.err := "";
                     Weather.results := None |}) as H.
    fold invalid in H.
    destruct (main_loop (before ++ after)%list _) as [st [[]|x|]];
      destruct (main_loop (before ++ invalid :: after)%list _) as [st' [[]|x'|]];
      simpl in *; first [reflexivity | exact I | discriminate].
  - intros e He. unfold Weather.main.
    rewrite (main_loop_refused_line e after _ He). reflexivity.
Qed.

(** ** The variable [results] outlives its request *)

(** A request for [get_alerts] that the handler answers. *)
Lemma serve_request_alerts (m a : gmap string json) (log text : string)
    (st : Weather.proc_state) :
  m !! "session_id" = None ->
  m !! "arguments" = Some (JObj a) ->
  m !! "tool_name" = Some (JStr "get_alerts") ->
  get_alerts a = (log, Ret text) ->
  serve_request (inr (JObj m)) st
  = ({| Weather.out :=
          if negb (String.eqb text "") then
            (Weather.out st +:+ "results" +:+ " " +:+ text +:+ nl)
            +:+ dumps_singleton "result" text +:+ nl
          else Weather.out st +:+ "results" +:+ " " +:+ text +:+ nl;
        Weather.err := Weather.err st +:+ log;
        Weather.results := Some text |}, Ret tt).
Proof.
  intros Hsid Hargs Htool Hga.
  unfold Weather.serve_request, Weather.mbind, Weather.lift, Weather.loads,
    Weather.mret, Weather.read_results, Weather.call, Weather.assign_results,
    Weather.write_out, dict_get.
  rewrite Hsid, Hargs, Htool. simpl. rewrite Hga. simpl.
  destruct (String.eqb text ""); reflexivity.
Qed.

(** A request for an unknown tool when [results] is bound. *)
Lemma serve_request_unknown_tool_bound (m : gmap string json) (tool : json)
    (text : string) (st : Weather.proc_state) :
  m !! "session_id" = None ->
  m !! "tool_name" = Some tool ->
  eq_str tool "get_forecast" = false -> eq_str tool "get_alerts" = false ->
  Weather.results st = Some text ->
  serve_request (inr (JObj m)) st
  = (if negb (String.eqb text "") then
       {| Weather.out := Weather.out st +:+ dumps_singleton "result" text +:+ nl;
          Weather.err := Weather.err st;
          Weather.results := Some text |}
     else st, Ret tt).
Proof.
  intros Hsid Htool Hf Ha Hres.
  unfold Weather.serve_request, Weather.mbind, Weather.lift, Weather.loads,
    Weather.mret, Weather.read_results, Weather.write_out, dict_get.
  rewrite Hsid, Htool, Hf, Ha, Hres. simpl.
  destruct (String.eqb text ""); simpl; rewrite ?Hres; reflexivity.
Qed.

(** X9.  The variable [results] of [main] outlives the request that set
    it.  When a request for a tool the program does not know follows a
    request that [get_alerts] has answered with a text, the program does
    not fail as it does for that request alone: it writes the result line
    of the earlier request a second time and exits with code 0. *)
Theorem unknown_tool_repeats_last_result
    (a a' : gmap string json) (tool : json) (log text : string) :
  get_alerts a = (log, Ret text) -> text <> "" ->
  eq_str tool "get_forecast" = false -> eq_str tool "get_alerts" = false ->
  main [Weather.Bytes (inr (input_line (JStr "get_alerts") a));
        Weather.Bytes (inr (input_line tool a'))]
  = Ret {| returncode := 0;
           stdout := Utf8 ("results " +:+ text +:+ nl
                           +:+ dumps_singleton "result" text +:+ nl
                           +:+ dumps_singleton "result" text +:+ nl);
           stderr := Utf8 (log +:+ "No request found" +:+ nl) |} /\
  main [Weather.Bytes (inr (input_line tool a'))]
  = Ret {| returncode := 1; stdout := Utf8 "";
           stderr := Utf8 (traceback unbound_results) |}.
Proof.
  intros Hga Htext Hf Ha. split; [|by apply main_unknown_tool].
  assert (negb (String.eqb text "") = true) as Hne.
  { apply negb_true_iff, String.eqb_neq. assumption. }
  unfold Weather.main, Weather.main_loop, Weather.try_json.
  unfold Weather.mbind at 1. unfold Weather.lift at 1, Weather.readline.
  unfold Weather.mbind at 1. unfold input_line at 1.
  rewrite (serve_request_alerts _ a log text); try reflexivity; [|assumption].
  rewrite Hne. unfold Weather.mbind at 1. unfold Weather.lift at 1.
  unfold Weather.mbind at 1. unfold input_line.
  rewrite (serve_request_unknown_tool_bound _ tool text); try reflexivity;
    try assumption.
  rewrite Hne. simpl. rewrite !append_assoc. reflexivity.
Qed.

End HandlerProgram.

Lemma unknown_tool_repeats_last_result_witness :
  let get_alerts := fun _ : gmap string json =>
    ("", Ret "No active alerts for this state.") in
  let traceback := fun e => "UnboundLocalError: " +:+ exn_str e in
  let text := "No active alerts for this state." in
  Weather.main get_alerts get_alerts traceback
    [Weather.Bytes (inr (input_line (JStr "get_alerts") {["state" := JStr "CA"]}));
     Weather.Bytes (inr (input_line (JStr "get_weather") ∅))]
  = Ret {| returncode := 0;
           stdout := Utf8 ("results " +:+ text +:+ nl
                           +:+ dumps_singleton "result" text +:+ nl
                           +:+ dumps_singleton "result" text +:+ nl);
           stderr := Utf8 ("" +:+ "No request found" +:+ nl) |} /\
  Weather.main get_alerts get_alerts traceback
    [Weather.Bytes (inr (input_line (JStr "get_weather") ∅))]
  = Ret {| returncode := 1; stdout := Utf8 "";
           stderr := Utf8 (traceback unbound_results) |}.
Proof.
  intros get_alerts traceback text.
  apply (unknown_tool_repeats_last_result get_alerts get_alerts traceback
           {["state" := JStr "CA"]} ∅ (JStr "get_weather") "" text).
  - reflexivity.
  - discriminate.
  - reflexivity.
  - reflexivity.
Defined.

(** ** What the relay answers for a tool the program knows *)

Lemma rstrip_snoc_space s w :
  py_isspace w = true -> rstrip (s +:+ String w "") = rstrip s.
Proof.
  intros Hw. induction s as [|a s IH].
  - simpl. by rewrite Hw.
  - change (rstrip (String a (s +:+ String w "")) = rstrip (String a s)).
    simpl. rewrite IH. reflexivity.
Qed.

Lemma rstrip_snoc_other s c :
  py_isspace c = false -> rstrip (s +:+ String c "") = s +:+ String c "".
Proof.
  intros Hc. induction s as [|a s IH].
  - simpl. by rewrite Hc.
  - change (rstrip (String a (s +:+ String c ""))
            = String a (s +:+ String c "")).
    simpl. rewrite IH. destruct s; reflexivity.
Qed.

(** Stripping the output of a request that was answered with a text takes
    the last line break away and nothing else. *)
Lemma strip_program_output (c : ascii) (label text : string) :
  py_isspace c = false ->
  strip (String c label +:+ text +:+ nl +:+ dumps_singleton "result" text +:+ nl)
  = String c label +:+ text +:+ nl +:+ dumps_singleton "result" text.
Proof.
  intros Hc. unfold strip.
  rewrite (lstrip_fixed (String c label +:+ _)) by (simpl; exact Hc).
  unfold dumps_singleton.
  assert (forall s1 s2 s3 s4 s5 : string,
            s1 +:+ s2 +:+ nl +:+ ("{" +:+ s3 +:+ s4 +:+ s5 +:+ "}") +:+ nl
            = ((s1 +:+ s2 +:+ nl +:+ "{" +:+ s3 +:+ s4 +:+ s5)
               +:+ String "}"%char "") +:+ String "010"%char "") as Hassoc.
  { intros. rewrite !append_assoc. reflexivity. }
  rewrite Hassoc, rstrip_snoc_space, rstrip_snoc_other by reflexivity.
  rewrite !append_assoc. reflexivity.
Qed.

(** A request for one of the two tools that the handler answers. *)
Lemma serve_request_known_tool
    (get_forecast get_alerts : gmap string json -> string * res string)
    (forecast : bool) (m a : gmap string json) (log text : string)
    (st : Weather.proc_state) :
  m !! "session_id" = None ->
  m !! "arguments" = Some (JObj a) ->
  m !! "tool_name"
  = Some (JStr (if forecast then "get_forecast" else "get_alerts")) ->
  (if forecast then get_forecast else get_alerts) a = (log, Ret text) ->
  Weather.serve_request get_forecast get_alerts (inr (JObj m)) st
  = ({| Weather.out :=
          if String.eqb text "" then
            Weather.out st +:+ (if forecast then "results: " else "results")
            +:+ " " +:+ text +:+ nl
          else
            (Weather.out st +:+ (if forecast then "results: " else "results")
             +:+ " " +:+ text +:+ nl)
            +:+ dumps_singleton "result" text +:+ nl;
        Weather.err := Weather.err st +:+ log;
        Weather.results := Some text |}, Ret tt).
Proof.
  intros Hsid Hargs Htool Hh.
  unfold Weather.serve_request, Weather.mbind, Weather.lift, Weather.loads,
    Weather.mret, Weather.read_results, Weather.call, Weather.assign_results,
    Weather.write_out, dict_get.
  rewrite Hsid, Hargs, Htool.
  destruct forecast; simpl; rewrite Hh; simpl;
    destruct (String.eqb text ""); reflexivity.
Qed.

(** What the caller of the relay gets when the program, on the request of
    the relay, ends with [x]. *)
Lemma relay_program_result
    (get_forecast get_alerts : gmap string json -> string * res string)
    (traceback : exn -> string) (dumps : json -> string)
    (delay fuel : nat) (server_path : string)
    (m : gmap string json) (sid tool : json) (a : gmap string json)
    (x : exit_info) (o e : string) :
  valid_body m sid tool a ->
  Weather.main get_forecast get_alerts traceback
    [Weather.request_line dumps (input_line tool (<["session_id" := sid]> a))]
  = Ret x ->
  stdout x = Utf8 o -> stderr x = Utf8 e ->
  (delay < fuel)%nat ->
  handle_messages (weather_env get_forecast get_alerts traceback dumps delay)
    server_path fuel {| request_json := Ret (JObj m) |}
  = Ret (result_response
           (if returncode x =? 0 then strip o
            else "MCP server exited with code " +:+ pretty (returncode x)
                 +:+ nl +:+ e)).
Proof.
  intros Hv Hmain Ho He Hlt.
  rewrite (handle_messages_valid _ _ _ _ _ _ _ Hv).
  set (args := <["session_id" := sid]> a) in *.
  pose proof (wait_exit_exits_first fuel _ delay x
                (as_program_exits_first get_forecast get_alerts traceback dumps
                   delay (input_line tool args) x Hmain) Hlt) as Hw.
  destruct (returncode x =? 0) eqn:Hrc.
  - apply Z.eqb_eq in Hrc.
    rewrite (run_mcp_tool_zero
               (weather_env get_forecast get_alerts traceback dumps delay)
               fuel server_path tool args _ x o eq_refl Hw Hrc Ho).
    reflexivity.
  - apply Z.eqb_neq in Hrc.
    rewrite (run_mcp_tool_nonzero
               (weather_env get_forecast get_alerts traceback dumps delay)
               fuel server_path tool args _ x e eq_refl Hw Hrc He).
    reflexivity.
Qed.

(** The answer of the relay for a tool that the handler answers. *)
Lemma relay_known_tool
    (get_forecast get_alerts : gmap string json -> string * res string)
    (traceback : exn -> string) (dumps : json -> string)
    (delay fuel : nat) (server_path : string)
    (forecast : bool) (m : gmap string json) (sid : json)
    (a : gmap string json) (log text : string) :
  let tool := if forecast then "get_forecast" else "get_alerts" in
  let handler := if forecast then get_forecast else get_alerts in
  let label := if forecast then "results: " else "results" in
  valid_body m sid (JStr tool) a ->
  fits dumps (input_line (JStr tool) (<["session_id" := sid]> a)) ->
  handler (<["session_id" := sid]> a) = (log, Ret text) ->
  (delay < fuel)%nat ->
  handle_messages (weather_env get_forecast get_alerts traceback dumps delay)
    server_path fuel {| request_json := Ret (JObj m) |}
  = Ret (result_response
           (if String.eqb text "" then strip label
            else label +:+ " " +:+ text +:+ nl
                 +:+ dumps_singleton "result" text)).
Proof.
  intros tool handler label Hv Hfits Hh Hlt.
  set (args := <["session_id" := sid]> a) in *.
  set (out := if String.eqb text "" then label +:+ " " +:+ text +:+ nl
              else (label +:+ " " +:+ text +:+ nl)
                   +:+ dumps_singleton "result" text +:+ nl).
  set (x := {| returncode := 0; stdout := Utf8 out;
               stderr := Utf8 (log +:+ "No request found" +:+ nl) |}).
  assert (Weather.main get_forecast get_alerts traceback
            [Weather.request_line dumps (input_line (JStr tool) args)] = Ret x)
    as Hmain.
  { rewrite (request_line_fits dumps _ Hfits).
    unfold Weather.main, Weather.main_loop, Weather.try_json.
    unfold Weather.mbind at 1. unfold Weather.lift at 1, Weather.readline.
    unfold Weather.mbind at 1. unfold input_line.
    rewrite (serve_request_known_tool get_forecast get_alerts forecast _
               args log text);
      first [ reflexivity | exact Hh
            | subst x out label; destruct (String.eqb text ""); reflexivity ]. }
  rewrite (relay_program_result get_forecast get_alerts traceback dumps delay
             fuel server_path m sid (JStr tool) a x out
             (log +:+ "No request found" +:+ nl) Hv Hmain eq_refl eq_refl Hlt).
  simpl. f_equal. f_equal. subst out.
  destruct (String.eqb text "") eqn:Etext.
  - apply String.eqb_eq in Etext. subst text label.
    destruct forecast; reflexivity.
  - subst label. destruct forecast.
    + transitivity
        (strip (String "r" "esults:  " +:+ text +:+ nl
                +:+ dumps_singleton "result" text +:+ nl)).
      { f_equal. rewrite !append_assoc. reflexivity. }
      rewrite strip_program_output by reflexivity. reflexivity.
    + transitivity
        (strip (String "r" "esults " +:+ text +:+ nl
                +:+ dumps_singleton "result" text +:+ nl)).
      { f_equal. rewrite !append_assoc. reflexivity. }
      rewrite strip_program_output by reflexivity. reflexivity.
Qed.

(** X10.  What the caller gets for a tool the program knows, when the
    request is within the limit of the reader of the program, is not the
    text of the handler but everything the program wrote on its standard
    output, stripped: the debugging line [results] (with a colon for
    [get_forecast]) that carries the text, and after it the JSON line
    that carries it again.  When the handler returns the empty text there
    is no JSON line, and the result is the bare word of the debugging
    line.  The handler is called with the arguments of the body and the
    session id of the body under [session_id]. *)
Theorem known_tool_result_is_whole_output
    (get_forecast get_alerts : gmap string json -> string * res string)
    (traceback : exn -> string) (dumps : json -> string)
    (delay fuel : nat) (server_path : string)
    (forecast : bool) (m : gmap string json) (sid : json)
    (a : gmap string json) (log text : string) :
  let tool := if forecast then "get_forecast" else "get_alerts" in
  let handler := if forecast then get_forecast else get_alerts in
  let label := if forecast then "results: " else "results" in
  valid_body m sid (JStr tool) a ->
  fits dumps (input_line (JStr tool) (<["session_id" := sid]> a)) ->
  handler (<["session_id" := sid]> a) = (log, Ret text) ->
  (delay < fuel)%nat ->
  handle_messages (weather_env get_forecast get_alerts traceback dumps delay)
    server_path fuel {| request_json := Ret (JObj m) |}
  = Ret (result_response
           (if String.eqb text "" then strip label
            else label +:+ " " +:+ text +:+ nl
                 +:+ dumps_singleton "result" text)).
Proof.
  intros tool handler label. apply relay_known_tool.
Qed.

Lemma known_tool_result_is_whole_output_witness :
  let handler := fun _ : gmap string json =>
    ("", Ret "No active alerts for this state.") in
  let traceback := fun e => exn_str e in
  let dumps := fun _ : json =>
    "{" +:+ dumps_str "tool_name" +:+ ": " +:+ dumps_str "get_alerts" +:+ ", "
    +:+ dumps_str "arguments" +:+ ": " +:+ dumps_singleton "session_id" "s1"
    +:+ "}" in
  let text := "No active alerts for this state." in
  handle_messages (weather_env handler handler traceback dumps 1)
    "weather_stdio.py" 2
    {| request_json :=
         Ret (JObj (<["session_id" := JStr "s1"]>
                      {["tool_name" := JStr "get_alerts"]})) |}
  = Ret (result_response
           (if String.eqb text "" then strip "results"
            else "results" +:+ " " +:+ text +:+ nl
                 +:+ dumps_singleton "result" text)).
Proof.
  intros handler traceback dumps text.
  apply (known_tool_result_is_whole_output handler handler traceback dumps 1 2
           "weather_stdio.py" false _ (JStr "s1") ∅ "" text).
  - repeat split; try reflexivity. left. split; reflexivity.
  - unfold fits. vm_compute. discriminate.
  - reflexivity.
  - lia.
Defined.

(** ** A handler that raises *)

Lemma serve_request_handler_raises
    (get_forecast get_alerts : gmap string json -> string * res string)
    (forecast : bool) (m a : gmap string json) (log : string) (e : exn)
    (st : Weather.proc_state) :
  m !! "session_id" = None ->
  m !! "arguments" = Some (JObj a) ->
  m !! "tool_name"
  = Some (JStr (if forecast then "get_forecast" else "get_alerts")) ->
  (if forecast then get_forecast else get_alerts) a = (log, Raise e) ->
  Weather.serve_request get_forecast get_alerts (inr (JObj m)) st
  = ({| Weather.out := Weather.out st; Weather.err := Weather.err st +:+ log;
        Weather.results := Weather.results st |}, Raise e).
Proof.
  intros Hsid Hargs Htool Hh.
  unfold Weather.serve_request, Weather.mbind, Weather.lift, Weather.loads,
    Weather.mret, Weather.call, dict_get.
  rewrite Hsid, Hargs, Htool.
  destruct forecast; simpl; rewrite Hh; reflexivity.
Qed.

(** X11.  When the handler of a known tool raises, on a request within
    the limit of the reader, the program dies of it: the caller gets,
    with status 200, the line "MCP server exited with code 1" followed by
    what the handler had logged and by the traceback.  The one exception
    is [json.JSONDecodeError]: the [try] of [main] encloses the call of
    the handler, so such an error is taken for a line that is not JSON,
    the program goes on and exits with code 0, and the caller gets "Bad
    request found" as the result. *)
Theorem handler_exception_is_reported
    (get_forecast get_alerts : gmap string json -> string * res string)
    (traceback : exn -> string) (dumps : json -> string)
    (delay fuel : nat) (server_path : string)
    (forecast : bool) (m : gmap string json) (sid : json)
    (a : gmap string json) (log : string) (e : exn) :
  let tool := if forecast then "get_forecast" else "get_alerts" in
  let handler := if forecast then get_forecast else get_alerts in
  valid_body m sid (JStr tool) a ->
  fits dumps (input_line (JStr tool) (<["session_id" := sid]> a)) ->
  handler (<["session_id" := sid]> a) = (log, Raise e) ->
  (delay < fuel)%nat ->
  handle_messages (weather_env get_forecast get_alerts traceback dumps delay)
    server_path fuel {| request_json := Ret (JObj m) |}
  = Ret (result_response
           match e with
           | JSONDecodeError _ => "Bad request found"
           | _ => "MCP server exited with code 1" +:+ nl +:+ log +:+ traceback e
           end).
Proof.
  intros tool handler Hv Hfits Hh Hlt.
  set (args := <["session_id" := sid]> a) in *.
  set (x := match e with
            | JSONDecodeError _ =>
                {| returncode := 0; stdout := Utf8 ("Bad request found" +:+ nl);
                   stderr := Utf8 ((log +:+ "Invalid JSON received" +:+ nl)
                                   +:+ "No request found" +:+ nl) |}
            | _ =>
                {| returncode := 1; stdout := Utf8 "";
                   stderr := Utf8 (log +:+ traceback e) |}
            end).
  assert (Weather.main get_forecast get_alerts traceback
            [Weather.request_line dumps (input_line (JStr tool) args)] = Ret x)
    as Hmain.
  { rewrite (request_line_fits dumps _ Hfits).
    unfold Weather.main, Weather.main_loop, Weather.try_json.
    unfold Weather.mbind at 1. unfold Weather.lift at 1, Weather.readline.
    unfold Weather.mbind at 1. unfold input_line.
    rewrite (serve_request_handler_raises get_forecast get_alerts forecast _
               args log e); first [reflexivity | exact Hh | idtac].
    subst x. destruct e; reflexivity. }
  destruct e as [msg|msg|msg|msg|msg|msg|msg];
    first
      [ rewrite (relay_program_result get_forecast get_alerts traceback dumps
                   delay fuel server_path m sid (JStr tool) a x
                   ("Bad request found" +:+ nl)
                   ((log +:+ "Invalid JSON received" +:+ nl)
                    +:+ "No request found" +:+ nl)
                   Hv Hmain eq_refl eq_refl Hlt);
        reflexivity
      | rewrite (relay_program_result get_forecast get_alerts traceback dumps
                   delay fuel server_path m sid (JStr tool) a x ""
                   (log +:+ traceback _) Hv Hmain eq_refl eq_refl Hlt);
        reflexivity ].
Qed.

Lemma handler_exception_is_reported_witness :
  let handler := fun _ : gmap string json =>
    ("", Raise (TypeError "get_alerts() missing 1 required positional argument: 'state'")) in
  let traceback := fun e => "TypeError: " +:+ exn_str e in
  let dumps := fun _ : json =>
    "{" +:+ dumps_str "tool_name" +:+ ": " +:+ dumps_str "get_alerts" +:+ ", "
    +:+ dumps_str "arguments" +:+ ": " +:+ dumps_singleton "session_id" "s1"
    +:+ "}" in
  let e := TypeError "get_alerts() missing 1 required positional argument: 'state'" in
  handle_messages (weather_env handler handler traceback dumps 1)
    "weather_stdio.py" 2
    {| request_json :=
         Ret (JObj (<["session_id" := JStr "s1"]>
                      {["tool_name" := JStr "get_alerts"]})) |}
  = Ret (result_response
           match e with
           | JSONDecodeError _ => "Bad request found"
           | _ => "MCP server exited with code 1" +:+ nl +:+ "" +:+ traceback e
           end).
Proof.
  intros handler traceback dumps e.
  apply (handler_exception_is_reported handler handler traceback dumps 1 2
           "weather_stdio.py" false _ (JStr "s1") ∅ "" e).
  - repeat split; try reflexivity. left. split; reflexivity.
  - unfold fits. vm_compute. discriminate.
  - reflexivity.
  - lia.
Defined.

(** ** A request over the limit of the reader *)

(** X22.  A request whose [json.dumps] is longer than 65536 bytes never
    reaches a handler: [readline], which stands before the [try] of
    [main], raises [ValueError], the program ends with exit code 1, and
    the caller gets, with status 200, the line "MCP server exited with
    code 1" followed by the traceback of that error, whatever tool the
    request names and whatever the handlers would do. *)
Theorem request_over_the_limit_ends_the_program
    (get_forecast get_alerts : gmap string json -> string * res string)
    (traceback : exn -> string) (dumps : json -> string)
    (delay fuel : nat) (server_path : string)
    (m : gmap string json) (sid tool : json) (a : gmap string json) :
  valid_body m sid tool a ->
  ~ fits dumps (input_line tool (<["session_id" := sid]> a)) ->
  (delay < fuel)%nat ->
  Weather.main get_forecast get_alerts traceback
    [Weather.request_line dumps (input_line tool (<["session_id" := sid]> a))]
  = Ret {| returncode := 1; stdout := Utf8 "";
           stderr := Utf8 (traceback over_limit) |} /\
  handle_messages (weather_env get_forecast get_alerts traceback dumps delay)
    server_path fuel {| request_json := Ret (JObj m) |}
  = Ret (result_response
           ("MCP server exited with code 1" +:+ nl +:+ traceback over_limit)).
Proof.
  intros Hv Hover Hlt.
  assert (Weather.main get_forecast get_alerts traceback
            [Weather.request_line dumps
               (input_line tool (<["session_id" := sid]> a))]
          = Ret {| returncode := 1; stdout := Utf8 "";
                   stderr := Utf8 (traceback over_limit) |}) as Hmain.
  { rewrite (request_line_over_limit dumps _ Hover). reflexivity. }
  split; [exact Hmain|].
  rewrite (relay_program_result get_forecast get_alerts traceback dumps delay
             fuel server_path m sid tool a _ "" (traceback over_limit)
             Hv Hmain eq_refl eq_refl Hlt).
  reflexivity.
Qed.

Lemma length_append (s1 s2 : string) :
  String.length (s1 +:+ s2) = (String.length s1 + String.length s2)%nat.
Proof.
  induction s1 as [|c s1 IH]; [reflexivity|].
  change (S (String.length (s1 +:+ s2))
          = S (String.length s1 + String.length s2)). by rewrite IH.
Qed.

Lemma length_letters (n : nat) : String.length (letters n) = n.
Proof. induction n as [|n IH]; simpl; [reflexivity | by rewrite IH]. Qed.

Lemma all_plain_letters (n : nat) : all_plain (letters n) = true.
Proof. induction n as [|n IH]; simpl; [reflexivity | exact IH]. Qed.

Lemma request_over_the_limit_ends_the_program_witness :
  let handler := fun _ : gmap string json => ("", Ret "sunny") in
  let traceback := fun e => "ValueError: " +:+ exn_str e in
  let state := letters (Z.to_nat 65536) in
  let dumps := fun _ : json =>
    "{" +:+ dumps_str "tool_name" +:+ ": " +:+ dumps_str "get_alerts" +:+ ", "
    +:+ dumps_str "arguments" +:+ ": {" +:+ dumps_str "state" +:+ ": "
    +:+ dumps_str state +:+ ", " +:+ dumps_str "session_id" +:+ ": "
    +:+ dumps_str "s1" +:+ "}}" in
  let m : gmap string json :=
    <["session_id" := JStr "s1"]>
      (<["tool_name" := JStr "get_alerts"]>
         {["arguments" := JObj {["state" := JStr state]}]}) in
  handle_messages (weather_env handler handler traceback dumps 1)
    "weather_stdio.py" 2 {| request_json := Ret (JObj m) |}
  = Ret (result_response
           ("MCP server exited with code 1" +:+ nl +:+ traceback over_limit)).
Proof.
  intros handler traceback state dumps m.
  apply (request_over_the_limit_ends_the_program handler handler traceback dumps
           1 2 "weather_stdio.py" m (JStr "s1") (JStr "get_alerts")
           {["state" := JStr state]}).
  - unfold valid_body, m.
    rewrite lookup_insert_eq.
    rewrite lookup_insert_ne, lookup_insert_eq by discriminate.
    rewrite !lookup_insert_ne, lookup_singleton_eq by discriminate.
    repeat split; try reflexivity. right. reflexivity.
  - unfold fits, Weather.limit, dumps, dumps_str.
    rewrite (escape_plain state) by apply all_plain_letters.
    rewrite !length_append. unfold state. rewrite length_letters.
    change (String.length dquote) with 1%nat. lia.
  - lia.
Defined.

(** * Properties of the handlers *)

Section HandlerFacts.

Variable service : string -> option json.
Variable repr : json -> string.

Local Abbreviation format_alert := (Handlers.format_alert repr).
Local Abbreviation get_alerts := (Handlers.get_alerts service repr).
Local Abbreviation py_str := (Handlers.py_str repr).

(** ** [format_alert] *)

Lemma format_alert_well_formed (f props : gmap string json) :
  f !! "properties" = Some (JObj props) ->
  format_alert (JObj f)
  = Ret (nl +:+ "Event: "
         +:+ py_str (default (JStr "Unknown") (props !! "event")) +:+ nl
         +:+ "Area: "
         +:+ py_str (default (JStr "Unknown") (props !! "areaDesc")) +:+ nl
         +:+ "Severity: "
         +:+ py_str (default (JStr "Unknown") (props !! "severity")) +:+ nl
         +:+ "Description: "
         +:+ py_str (default (JStr "No description available")
                       (props !! "description")) +:+ nl
         +:+ "Instructions: "
         +:+ py_str (default (JStr "No specific instructions provided")
                       (props !! "instruction")) +:+ nl).
Proof.
  intros H. unfold Handlers.format_alert, Handlers.getitem, dict_get.
  rewrite H. simpl.
  destruct (props !! "event"), (props !! "areaDesc"), (props !! "severity"),
    (props !! "description"), (props !! "instruction"); reflexivity.
Qed.

Lemma format_alert_returns feature :
  returns (format_alert feature) <-> well_formed_feature feature.
Proof.
  split.
  - intros [text H]. unfold Handlers.format_alert, Handlers.getitem in H.
    destruct feature as [|b|z|x|s|l|f]; try discriminate H.
    destruct (f !! "properties") as [props|] eqn:Hp; [|discriminate H].
    destruct props as [|b|z|x|s|l|props]; try discriminate H.
    exists f, props. split; [reflexivity | assumption].
  - intros (f & props & -> & H). eexists.
    apply format_alert_well_formed. exact H.
Qed.

Lemma format_alert_not_pending feature : format_alert feature <> Pending.
Proof.
  unfold Handlers.format_alert, Handlers.getitem.
  destruct feature as [|b|z|x|s|l|f]; try discriminate.
  destruct (f !! "properties") as [props|]; [|discriminate].
  destruct props as [|b|z|x|s|l|props]; discriminate.
Qed.

Lemma format_alert_not_empty feature text :
  format_alert feature = Ret text -> text <> "".
Proof.
  intros H.
  assert (well_formed_feature feature) as (f & props & -> & Hp)
    by (apply format_alert_returns; by exists text).
  rewrite (format_alert_well_formed f props Hp) in H.
  injection H as <-. discriminate.
Qed.

(** X12.  [format_alert] returns a text exactly for a feature that is an
    object whose [properties] are an object; for any other feature it
    raises.  The text has the five lines of the template, and each of the
    five fields is shown in the same way: the default text stands only
    for a key that is absent, a field that is present with the value null
    reads "None", a string is shown as it is, and any other value as
    [str] shows it. *)
Theorem format_alert_needs_object_properties (feature : json) :
  (returns (format_alert feature) <-> well_formed_feature feature) /\
  (~ well_formed_feature feature -> exists e, format_alert feature = Raise e) /\
  (forall f props,
     feature = JObj f -> f !! "properties" = Some (JObj props) ->
     let shown (key absent : string) : string :=
       match props !! key with
       | None => absent
       | Some JNull => "None"
       | Some (JStr s) => s
       | Some v => py_str v
       end in
     format_alert feature
     = Ret (nl +:+ "Event: " +:+ shown "event" "Unknown" +:+ nl
            +:+ "Area: " +:+ shown "areaDesc" "Unknown" +:+ nl
            +:+ "Severity: " +:+ shown "severity" "Unknown" +:+ nl
            +:+ "Description: "
            +:+ shown "description" "No description available" +:+ nl
            +:+ "Instructions: "
            +:+ shown "instruction" "No specific instructions provided" +:+ nl)).
Proof.
  split; [apply format_alert_returns|]. split.
  - intros Hn. destruct (format_alert feature) as [text|e|] eqn:Hf.
    + destruct Hn. apply format_alert_returns. by exists text.
    + by exists e.
    + by destruct (format_alert_not_pending feature).
  - intros f props -> Hp shown. rewrite (format_alert_well_formed f props Hp).
    assert (forall key absent : string,
              py_str (default (JStr absent) (props !! key)) = shown key absent)
      as Hshown.
    { intros key absent. subst shown. cbv beta.
      destruct (props !! key) as [[]|]; reflexivity. }
    rewrite !Hshown. reflexivity.
Qed.

(** ** [get_alerts] *)

Lemma map_res_Forall2 {A B : Type} (f : A -> res B) (l : list A) (ys : list B) :
  Handlers.map_res f l = Ret ys <-> Forall2 (fun x y => f x = Ret y) l ys.
Proof.
  revert ys. induction l as [|x l IH]; intros ys; simpl.
  - split; [intros [= <-]; constructor | intros H; by inversion H].
  - split.
    + destruct (f x) as [y|e|] eqn:Hx; simpl; try discriminate.
      destruct (Handlers.map_res f l) as [ys'|e|] eqn:Hl; simpl; try discriminate.
      intros [= <-]. constructor; [assumption | by apply IH].
    + intros H. inversion H as [|x' y l' ys' Hx Hl]; subst.
      rewrite Hx. simpl. apply IH in Hl. rewrite Hl. reflexivity.
Qed.

Lemma map_res_returns {A B : Type} (f : A -> res B) (l : list A) :
  returns (Handlers.map_res f l) <-> Forall (fun x => returns (f x)) l.
Proof.
  induction l as [|x l IH]; simpl.
  - split; [constructor | by eexists].
  - rewrite Forall_cons, <- IH. split.
    + intros [ys H].
      destruct (f x) as [y|e|]; simpl in H; try discriminate.
      destruct (Handlers.map_res f l) as [ys'|e|]; simpl in H; try discriminate.
      split; by eexists.
    + intros [[y ->] [ys ->]]. by eexists.
Qed.

Lemma join_not_empty sep x rest : x <> "" -> Handlers.join sep (x :: rest) <> "".
Proof.
  intros Hx. destruct x as [|c x]; [contradiction|].
  destruct rest; simpl; discriminate.
Qed.

Lemma elements_of_truthy v items :
  truthy v = true -> Handlers.elements v = Ret items -> items <> [].
Proof.
  destruct v as [|b|z|x|s|l|m]; simpl; try discriminate.
  - destruct s; [discriminate|]. intros _ [= <-]. discriminate.
  - destruct l; [discriminate|]. intros _ [= <-]. discriminate.
  - intros Hm [= <-]. apply negb_true_iff, bool_decide_eq_false in Hm.
    intros Hnil. apply Hm, map_to_list_empty_iff.
    apply fmap_nil_inv in Hnil. apply fmap_nil_inv in Hnil. exact Hnil.
Qed.

(** X13.  Whatever [get_alerts] is called with and whatever the service
    answers, a text that it returns is never empty: it is one of its two
    fixed messages or the alerts, of which there is at least one. *)
Theorem get_alerts_text_is_not_empty (kwargs : gmap string json)
    (log text : string) :
  get_alerts kwargs = (log, Ret text) -> text <> "".
Proof.
  unfold Handlers.get_alerts.
  destruct (Handlers.unexpected _ kwargs); [discriminate|].
  destruct (kwargs !! "state") as [state|]; [|discriminate].
  unfold Handlers.get_alerts_body, Handlers.logged.
  destruct (negb (truthy _)); simpl; [intros [= _ <-]; discriminate|].
  destruct (Handlers.contains_key _ _) as [present|e|]; simpl;
    try discriminate.
  destruct (negb present); simpl; [intros [= _ <-]; discriminate|].
  destruct (Handlers.getitem _ _) as [features|e|]; simpl; try discriminate.
  destruct (negb (truthy features)) eqn:Ht; simpl;
    [intros [= _ <-]; discriminate|].
  destruct (Handlers.elements features) as [items|e|] eqn:He; simpl;
    try discriminate.
  destruct (Handlers.map_res _ items) as [alerts|e|] eqn:Hm; simpl;
    try discriminate.
  intros [= _ <-].
  apply negb_false_iff in Ht.
  pose proof (elements_of_truthy features items Ht He) as Hitems.
  apply map_res_Forall2 in Hm.
  destruct Hm as [|item alert items alerts Hfirst _]; [contradiction|].
  apply join_not_empty. eapply format_alert_not_empty. exact Hfirst.
Qed.

End HandlerFacts.

Lemma get_alerts_text_is_not_empty_witness :
  "Unable to fetch alerts or no alerts found." <> "".
Proof.
  apply (get_alerts_text_is_not_empty (fun _ => None) (fun _ => "")
           {["state" := JStr "CA"]}
           ("get_alerts called with state=CA, session_id=" +:+ nl)).
  reflexivity.
Defined.

Section AlertsOfTheService.

Variable service : string -> option json.
Variable repr : json -> string.
Variables (kwargs : gmap string json) (state : json).
Variables (d : gmap string json) (features : list json).

Hypothesis kwargs_expected :
  Handlers.unexpected ["state"; "session_id"] kwargs = None.
Hypothesis kwargs_state : kwargs !! "state" = Some state.
Hypothesis service_answers :
  service (Handlers.NWS_API_BASE +:+ "/alerts/active/area/"
           +:+ Handlers.py_str repr state)
  = Some (JObj d).
Hypothesis answer_features : d !! "features" = Some (JArr features).

(** The call for a list of features, step by step. *)
Lemma get_alerts_of_features :
  Handlers.get_alerts service repr kwargs
  = Handlers.logged
      ("get_alerts called with state=" +:+ Handlers.py_str repr state
       +:+ ", session_id="
       +:+ Handlers.py_str repr (default (JStr "") (kwargs !! "session_id"))
       +:+ nl)
      (match features with
       | [] => Ret ("", "No active alerts for this state.")
       | _ :: _ =>
           alerts <- Handlers.map_res (Handlers.format_alert repr) features ;;
           Ret ("get_alerts result: "
                +:+ Handlers.join (nl +:+ "---" +:+ nl) alerts +:+ nl,
                Handlers.join (nl +:+ "---" +:+ nl) alerts)
       end).
Proof.
  unfold Handlers.get_alerts. rewrite kwargs_expected, kwargs_state.
  unfold Handlers.get_alerts_body, Handlers.make_nws_request.
  rewrite service_answers.
  change (default JNull (Some (JObj d))) with (JObj d). f_equal.
  assert (truthy (JObj d) = true) as ->.
  { simpl. apply negb_true_iff, bool_decide_eq_false. intros ->.
    rewrite lookup_empty in answer_features. discriminate. }
  simpl. rewrite answer_features. simpl.
  destruct features; reflexivity.
Qed.

(** X14.  When the service answers with a list of features, [get_alerts]
    returns a text exactly when every feature of the list is an object
    whose [properties] are an object.  One feature that is not makes the
    handler raise, and no alert is reported at all. *)
Theorem get_alerts_needs_every_feature_well_formed :
  returns (Handlers.get_alerts service repr kwargs).2
  <-> Forall well_formed_feature features.
Proof.
  rewrite get_alerts_of_features.
  assert (Forall well_formed_feature features
          <-> returns (Handlers.map_res (Handlers.format_alert repr) features))
    as ->.
  { rewrite map_res_returns. apply Forall_iff. intros x.
    symmetry. apply format_alert_returns. }
  destruct features as [|x l].
  - simpl. split; intros _; by eexists.
  - unfold Handlers.logged.
    destruct (Handlers.map_res _ (x :: l)) as [alerts|e|]; simpl.
    + split; intros _; by eexists.
    + split; intros [? H]; discriminate H.
    + split; intros [? H]; discriminate H.
Qed.

End AlertsOfTheService.

Lemma get_alerts_needs_every_feature_well_formed_witness :
  let bad := JObj {["geometry" := JNull]} in
  let good := JObj {["properties" := JObj {["event" := JStr "Flood Warning"]}]} in
  let d : gmap string json := {["features" := JArr [good; bad]]} in
  let service := fun _ : string => Some (JObj d) in
  let kwargs : gmap string json :=
    <["state" := JStr "CA"]> {["session_id" := JStr "s1"]} in
  returns (Handlers.get_alerts service (fun _ => "") kwargs).2
  <-> Forall well_formed_feature [good; bad].
Proof.
  intros bad good d service kwargs.
  apply (get_alerts_needs_every_feature_well_formed service (fun _ => "")
           kwargs (JStr "CA") d [good; bad]); reflexivity.
Defined.

(** ** [get_forecast] *)

Section ForecastOfTheService.

Variable service : string -> option json.
Variable repr : json -> string.
Variables (kwargs : gmap string json) (latitude longitude : json).

Hypothesis kwargs_expected :
  Handlers.unexpected ["latitude"; "longitude"; "session_id"] kwargs = None.
Hypothesis kwargs_latitude : kwargs !! "latitude" = Some latitude.
Hypothesis kwargs_longitude : kwargs !! "longitude" = Some longitude.

Local Abbreviation points_url :=
  (Handlers.NWS_API_BASE +:+ "/points/" +:+ Handlers.py_str repr latitude
   +:+ "," +:+ Handlers.py_str repr longitude).
Local Abbreviation called :=
  ("get_forecast called with latitude=" +:+ Handlers.py_str repr latitude
   +:+ ", longitude=" +:+ Handlers.py_str repr longitude +:+ ", session_id="
   +:+ Handlers.py_str repr (default (JStr "") (kwargs !! "session_id")) +:+ nl).

Lemma truthy_object (m : gmap string json) (k : string) (v : json) :
  m !! k = Some v -> truthy (JObj m) = true.
Proof.
  intros H. simpl. apply negb_true_iff, bool_decide_eq_false. intros ->.
  rewrite lookup_empty in H. discriminate.
Qed.

Lemma get_forecast_points_fail :
  truthy (default JNull (service points_url)) = false ->
  Handlers.get_forecast service repr kwargs
  = (called, Ret "Unable to fetch forecast data for this location.").
Proof.
  intros H. unfold Handlers.get_forecast.
  rewrite kwargs_expected, kwargs_latitude, kwargs_longitude.
  unfold Handlers.get_forecast_body, Handlers.make_nws_request.
  rewrite H. simpl. by rewrite append_empty_r.
Qed.

Lemma get_forecast_points_incomplete (p : gmap string json) :
  service points_url = Some (JObj p) -> truthy (JObj p) = true ->
  p !! "properties" = None ->
  Handlers.get_forecast service repr kwargs
  = (called, Raise (OtherError "'properties'")).
Proof.
  intros Hs Ht Hp. unfold Handlers.get_forecast.
  rewrite kwargs_expected, kwargs_latitude, kwargs_longitude.
  unfold Handlers.get_forecast_body, Handlers.make_nws_request.
  rewrite Hs. change (default JNull (Some (JObj p))) with (JObj p).
  rewrite Ht. simpl. rewrite Hp. reflexivity.
Qed.

Lemma get_forecast_second_fails (p pp : gmap string json) (url : json) :
  service points_url = Some (JObj p) ->
  p !! "properties" = Some (JObj pp) -> pp !! "forecast" = Some url ->
  truthy (Handlers.make_nws_request service url) = false ->
  Handlers.get_forecast service repr kwargs
  = (called, Ret "Unable to fetch detailed forecast.").
Proof.
  intros Hs Hp Hpp Hf. unfold Handlers.get_forecast.
  rewrite kwargs_expected, kwargs_latitude, kwargs_longitude.
  unfold Handlers.get_forecast_body.
  unfold Handlers.make_nws_request at 1 2.
  rewrite Hs. change (default JNull (Some (JObj p))) with (JObj p).
  rewrite (truthy_object p _ _ Hp). simpl. rewrite Hp. simpl. rewrite Hpp.
  simpl. rewrite Hf. simpl. by rewrite append_empty_r.
Qed.

Lemma get_forecast_of_periods (periods : list json) :
  forecast_periods service repr latitude longitude periods ->
  Handlers.get_forecast service repr kwargs
  = Handlers.logged called
      (forecasts <- Handlers.map_res (Handlers.format_period repr)
                      (take 5 periods) ;;
       Ret ("get_forecast result: "
            +:+ Handlers.join (nl +:+ "---" +:+ nl) forecasts +:+ nl,
            Handlers.join (nl +:+ "---" +:+ nl) forecasts)).
Proof.
  intros (p & pp & fd & fp & url & Hs & Hp & Hpp & Hf & Hfd & Hfp).
  unfold Handlers.get_forecast.
  rewrite kwargs_expected, kwargs_latitude, kwargs_longitude.
  unfold Handlers.get_forecast_body. f_equal.
  unfold Handlers.make_nws_request at 1 2.
  rewrite Hs. change (default JNull (Some (JObj p))) with (JObj p).
  rewrite (truthy_object p _ _ Hp). simpl. rewrite Hp. simpl. rewrite Hpp.
  simpl. rewrite Hf. change (default JNull (Some (JObj fd))) with (JObj fd).
  rewrite (truthy_object fd _ _ Hfd).
  simpl. rewrite Hfd. simpl. rewrite Hfp. reflexivity.
Qed.

(** X15.  When the points request fails, or gives an empty or null
    answer, [get_forecast] returns "Unable to fetch forecast data for this
    location."; when the forecast request fails (or the URL it was given
    is not a string) it returns "Unable to fetch detailed forecast.".
    But a points answer that is an object without [properties] is not
    taken for a failure: the handler raises a [KeyError]. *)
Theorem get_forecast_failures :
  (truthy (default JNull (service points_url)) = false ->
   Handlers.get_forecast service repr kwargs
   = (called, Ret "Unable to fetch forecast data for this location.")) /\
  (forall p pp url,
     service points_url = Some (JObj p) ->
     p !! "properties" = Some (JObj pp) -> pp !! "forecast" = Some url ->
     truthy (Handlers.make_nws_request service url) = false ->
     Handlers.get_forecast service repr kwargs
     = (called, Ret "Unable to fetch detailed forecast.")) /\
  (forall p,
     service points_url = Some (JObj p) -> p <> ∅ ->
     p !! "properties" = None ->
     Handlers.get_forecast service repr kwargs
     = (called, Raise (OtherError "'properties'"))).
Proof.
  split; [|split].
  - apply get_forecast_points_fail.
  - apply get_forecast_second_fails.
  - intros p Hs Hne Hp. apply (get_forecast_points_incomplete p Hs); [|exact Hp].
    simpl. apply negb_true_iff, bool_decide_eq_false. exact Hne.
Qed.

End ForecastOfTheService.

Lemma get_forecast_failures_witness :
  let kwargs : gmap string json :=
    <["latitude" := JInt 34]> (<["longitude" := JInt (-118)]>
      {["session_id" := JStr "s1"]}) in
  let service := fun _ : string => Some (JObj {["status" := JInt 404]}) in
  let repr := fun _ : json => "" in
  let points_url := "https://api.weather.gov/points/34,-118" in
  let called :=
    "get_forecast called with latitude=34, longitude=-118, session_id=s1" +:+ nl in
  (truthy (default JNull (service points_url)) = false ->
   Handlers.get_forecast service repr kwargs
   = (called, Ret "Unable to fetch forecast data for this location.")) /\
  (forall p pp url,
     service points_url = Some (JObj p) ->
     p !! "properties" = Some (JObj pp) -> pp !! "forecast" = Some url ->
     truthy (Handlers.make_nws_request service url) = false ->
     Handlers.get_forecast service repr kwargs
     = (called, Ret "Unable to fetch detailed forecast.")) /\
  (forall p,
     service points_url = Some (JObj p) -> p <> ∅ ->
     p !! "properties" = None ->
     Handlers.get_forecast service repr kwargs
     = (called, Raise (OtherError "'properties'"))).
Proof.
  intros kwargs service repr points_url called.
  apply (get_forecast_failures service repr kwargs (JInt 34) (JInt (-118)));
    reflexivity.
Defined.

(** X16.  [get_forecast] shows five periods at most, and it looks at no
    period after the fifth: when two services answer the same place with
    lists of periods that agree on their first five, the handler logs and
    returns the same for both, whatever the later periods hold, be they
    malformed. *)
Theorem get_forecast_reads_five_periods
    (service service' : string -> option json) (repr : json -> string)
    (kwargs : gmap string json) (latitude longitude : json)
    (periods periods' : list json) :
  Handlers.unexpected ["latitude"; "longitude"; "session_id"] kwargs = None ->
  kwargs !! "latitude" = Some latitude ->
  kwargs !! "longitude" = Some longitude ->
  forecast_periods service repr latitude longitude periods ->
  forecast_periods service' repr latitude longitude periods' ->
  take 5 periods = take 5 periods' ->
  Handlers.get_forecast service repr kwargs
  = Handlers.get_forecast service' repr kwargs /\
  exists forecasts,
    (length forecasts <= 5)%nat /\
    ((Handlers.get_forecast service repr kwargs).2 = Pending \/
     (exists e, (Handlers.get_forecast service repr kwargs).2 = Raise e) \/
     (Handlers.get_forecast service repr kwargs).2
     = Ret (Handlers.join (nl +:+ "---" +:+ nl) forecasts)).
Proof.
  intros Hk Hlat Hlon Hp Hp' Htake.
  rewrite (get_forecast_of_periods service repr kwargs latitude longitude
             Hk Hlat Hlon periods Hp).
  rewrite (get_forecast_of_periods service' repr kwargs latitude longitude
             Hk Hlat Hlon periods' Hp').
  rewrite Htake. split; [reflexivity|].
  destruct (Handlers.map_res _ (take 5 periods')) as [forecasts|e|] eqn:Hm;
    simpl.
  - exists forecasts. split; [|right; right; reflexivity].
    apply map_res_Forall2, Forall2_length in Hm. rewrite <- Hm.
    rewrite length_take. lia.
  - exists []. split; [simpl; lia|]. right. left. by exists e.
  - exists []. split; [simpl; lia|]. by left.
Qed.

Lemma get_forecast_reads_five_periods_witness :
  let kwargs : gmap string json :=
    <["latitude" := JInt 34]> (<["longitude" := JInt (-118)]>
      {["session_id" := JStr "s1"]}) in
  let five := sample_period <$> ["Today"; "Tonight"; "Monday"; "Monday Night";
                                 "Tuesday"] in
  let service := sample_service (five ++ [JNull])%list in
  let service' := sample_service five in
  let repr := fun _ : json => "" in
  Handlers.get_forecast service repr kwargs
  = Handlers.get_forecast service' repr kwargs /\
  exists forecasts,
    (length forecasts <= 5)%nat /\
    ((Handlers.get_forecast service repr kwargs).2 = Pending \/
     (exists e, (Handlers.get_forecast service repr kwargs).2 = Raise e) \/
     (Handlers.get_forecast service repr kwargs).2
     = Ret (Handlers.join (nl +:+ "---" +:+ nl) forecasts)).
Proof.
  intros kwargs five service service' repr.
  apply (get_forecast_reads_five_periods service service' repr kwargs
           (JInt 34) (JInt (-118)) (five ++ [JNull])%list five).
  - reflexivity.
  - reflexivity.
  - reflexivity.
  - eexists _, _, _, _, _. repeat split; reflexivity.
  - eexists _, _, _, _, _. repeat split; reflexivity.
  - reflexivity.
Defined.

(** ** A request for alerts, from the POST to the response *)

(** X17.  The whole way of a request for [get_alerts] when the service has
    no alert for the state and the request is within the limit of the
    reader of the program: the POST passes the check, the program is
    spawned and calls the handler with the state and the session id, the
    handler returns "No active alerts for this state.", and the caller
    gets, with status 200, a [result] that holds this text twice: on the
    debugging line [results] and, after a line break, inside the JSON line
    of the program. *)
Theorem no_alerts_from_post_to_response
    (service : string -> option json) (repr : json -> string)
    (traceback : exn -> string) (dumps : json -> string)
    (delay fuel : nat) (server_path : string)
    (m : gmap string json) (sid state : json) (d : gmap string json) :
  valid_body m sid (JStr "get_alerts") {["state" := state]} ->
  fits dumps
    (input_line (JStr "get_alerts") (<["session_id" := sid]> {["state" := state]})) ->
  service (Handlers.NWS_API_BASE +:+ "/alerts/active/area/"
           +:+ Handlers.py_str repr state)
  = Some (JObj d) ->
  d !! "features" = Some (JArr []) ->
  (delay < fuel)%nat ->
  handle_messages
    (weather_env (Handlers.get_forecast service repr)
       (Handlers.get_alerts service repr) traceback dumps delay)
    server_path fuel {| request_json := Ret (JObj m) |}
  = Ret (result_response
           ("results No active alerts for this state." +:+ nl
            +:+ "{" +:+ dquote +:+ "result" +:+ dquote +:+ ": " +:+ dquote
            +:+ "No active alerts for this state." +:+ dquote +:+ "}")).
Proof.
  intros Hv Hfits Hs Hd Hlt.
  set (kwargs := <["session_id" := sid]> ({["state" := state]} : gmap string json))
    in *.
  assert (Handlers.get_alerts service repr kwargs
          = ("get_alerts called with state=" +:+ Handlers.py_str repr state
             +:+ ", session_id=" +:+ Handlers.py_str repr sid +:+ nl,
             Ret "No active alerts for this state.")) as Hh.
  { rewrite (get_alerts_of_features service repr kwargs state d []);
      try assumption; try reflexivity.
    simpl. by rewrite append_empty_r. }
  rewrite (relay_known_tool (Handlers.get_forecast service repr)
             (Handlers.get_alerts service repr) traceback dumps delay fuel
             server_path false m sid {["state" := state]} _
             "No active alerts for this state." Hv Hfits Hh Hlt).
  reflexivity.
Qed.

Lemma no_alerts_from_post_to_response_witness :
  let service := fun _ : string => Some (JObj {["features" := JArr []]}) in
  let repr := fun _ : json => "" in
  let dumps := fun _ : json =>
    "{" +:+ dumps_str "tool_name" +:+ ": " +:+ dumps_str "get_alerts" +:+ ", "
    +:+ dumps_str "arguments" +:+ ": {" +:+ dumps_str "state" +:+ ": "
    +:+ dumps_str "CA" +:+ ", " +:+ dumps_str "session_id" +:+ ": "
    +:+ dumps_str "s1" +:+ "}}" in
  let m : gmap string json :=
    <["session_id" := JStr "s1"]> (<["tool_name" := JStr "get_alerts"]>
      {["arguments" := JObj {["state" := JStr "CA"]}]}) in
  handle_messages
    (weather_env (Handlers.get_forecast service repr)
       (Handlers.get_alerts service repr) exn_str dumps 1)
    "weather_stdio.py" 2 {| request_json := Ret (JObj m) |}
  = Ret (result_response
           ("results No active alerts for this state." +:+ nl
            +:+ "{" +:+ dquote +:+ "result" +:+ dquote +:+ ": " +:+ dquote
            +:+ "No active alerts for this state." +:+ dquote +:+ "}")).
Proof.
  intros service repr dumps m.
  apply (no_alerts_from_post_to_response service repr exn_str dumps 1 2
           "weather_stdio.py" m (JStr "s1") (JStr "CA")
           {["features" := JArr []]}).
  - repeat split; try reflexivity. right. reflexivity.
  - unfold fits. vm_compute. discriminate.
  - reflexivity.
  - reflexivity.
  - lia.
Defined.

(** * Properties of the client *)

(** ** Posting to the relay *)

Lemma handle_messages_status
    (create_subprocess_exec : string -> spawn) (server_path : string) (fuel : nat)
    (request : Request) (r : JSONResponse) :
  handle_messages create_subprocess_exec server_path fuel request = Ret r ->
  status_code r = 200 \/ status_code r = 400 \/ status_code r = 500.
Proof.
  unfold handle_messages.
  destruct (request_json request) as [data|e|]; simpl.
  - destruct data as [|b|z|f|s|l|m]; simpl;
      try (intros [= <-]; right; right; reflexivity).
    destruct (negb (truthy _) || negb (truthy _)); simpl.
    { intros [= <-]. right. left. reflexivity. }
    destruct (match m !! "arguments" with Some v => v | None => JObj ∅ end)
      as [|b|z|f|s|l|a]; simpl;
      try (intros [= <-]; right; right; reflexivity).
    destruct (run_mcp_tool _ _ _ _ _) as [s|e|]; simpl.
    + intros [= <-]. left. reflexivity.
    + destruct e; intros [= <-]; simpl; auto.
    + discriminate.
  - destruct e; intros [= <-]; simpl; auto.
  - discriminate.
Qed.

(** X18.  [post_message] takes only status 202 for success, and the relay
    never answers 202: whatever is posted and whatever the relay answers,
    [post_message] returns [False].  The two bodies that [main] posts are
    refused with status 400, because they carry [session_id] and
    [tool_name] inside [params], where [handle_messages] does not look. *)
Theorem posting_to_the_relay_never_succeeds
    (create_subprocess_exec : string -> spawn) (server_path : string) (fuel : nat) :
  (forall request r,
     handle_messages create_subprocess_exec server_path fuel request = Ret r ->
     Client.post_message (Client.Responded (status_code r)) = false) /\
  (forall e, Client.post_message (Client.PostRaises e) = false) /\
  (forall session_id body,
     body = Client.message_forecast session_id \/
     body = Client.message_alerts session_id ->
     handle_messages create_subprocess_exec server_path fuel
       {| request_json := Ret (JObj body) |}
     = Ret (error_response "Invalid request: Missing session_id or tool_name" 400)).
Proof.
  split; [|split].
  - intros request r Hr.
    destruct (handle_messages_status _ _ _ _ _ Hr) as [H|[H|H]];
      rewrite H; reflexivity.
  - reflexivity.
  - intros session_id body Hbody.
    apply handle_messages_missing. left.
    assert (body !! "session_id" = None) as ->; [|reflexivity].
    destruct Hbody as [-> | ->];
      unfold Client.message_forecast, Client.message_alerts;
      rewrite !lookup_insert_ne by discriminate;
      apply lookup_singleton_ne; discriminate.
Qed.

(** ** Listening to the push channel *)

Section Listening.

Variable loads : string -> exn + json.
Variable session_id_of : json -> exn + option string.

Local Abbreviation on_chunk := (Client.on_chunk loads session_id_of).
Local Abbreviation listen := (Client.listen loads session_id_of).
Local Abbreviation sse_client := (Client.sse_client loads session_id_of).

(** Once the flag is set, a chunk changes neither the URL nor the session
    id, and the flag stays. *)
Lemma on_chunk_found line st :
  Client.endpoint_found st = true ->
  Client.session_id (on_chunk line st).1 = Client.session_id st /\
  Client.messages_url (on_chunk line st).1 = Client.messages_url st /\
  Client.endpoint_found (on_chunk line st).1 = true.
Proof.
  intros Hf. unfold Client.on_chunk.
  destruct line as [text|msg]; [|simpl; auto].
  destruct text as [|a text]; [simpl; auto|].
  set (decoded_line := strip (String a text)).
  rewrite Hf, andb_false_r, andb_true_r.
  destruct (String.prefix "data:" decoded_line); [|simpl; auto].
  destruct (loads _) as [e|message]; [|simpl; auto].
  destruct e; simpl; auto.
Qed.

Lemma listen_found chunks st :
  Client.endpoint_found st = true ->
  Client.session_id (listen chunks st).1 = Client.session_id st /\
  Client.messages_url (listen chunks st).1 = Client.messages_url st /\
  Client.endpoint_found (listen chunks st).1 = true.
Proof.
  revert st. induction chunks as [|line chunks IH]; intros st Hf; [done|].
  simpl. destruct (on_chunk_found line st Hf) as (Hs & Hu & Hf').
  destruct (on_chunk line st) as [st' [e|]]; simpl in *; [done|].
  destruct (IH st' Hf') as (Hs' & Hu' & Hf'').
  by rewrite Hs', Hu', Hf'', Hs, Hu.
Qed.

(** Before the flag is set, a chunk that is not the endpoint event leaves
    the state as it is: a [data:] line is not parsed and not queued. *)
Lemma on_chunk_before line st :
  Client.endpoint_found st = false ->
  Client.endpoint_event line = false ->
  on_chunk line st = (st, None).
Proof.
  intros Hf He. unfold Client.on_chunk.
  destruct line as [text|msg]; [|done].
  destruct text as [|a text]; [done|].
  simpl in He. set (decoded_line := strip (String a text)) in *.
  by rewrite He, Hf, andb_false_r.
Qed.

Lemma listen_before chunks st :
  Client.endpoint_found st = false ->
  forallb (fun line => negb (Client.endpoint_event line)) chunks = true ->
  listen chunks st = (st, None).
Proof.
  intros Hf. induction chunks as [|line chunks IH]; [done|].
  simpl. intros [Hl Hr]%andb_true_iff.
  rewrite on_chunk_before; [auto | done | by apply negb_true_iff].
Qed.

Lemma listen_app pre post st :
  listen (pre ++ post)%list st
  = match listen pre st with
    | (st', None) => listen post st'
    | (st', Some e) => (st', Some e)
    end.
Proof.
  revert st. induction pre as [|line pre IH]; intros st; [done|].
  simpl. destruct (on_chunk line st) as [st' [e|]]; [done|]. apply IH.
Qed.

(** The endpoint event sets the flag; when its text has no "data: " the
    chunk does nothing else. *)
Lemma on_chunk_endpoint text st :
  Client.endpoint_found st = false ->
  String.prefix "event: endpoint" (strip text) = true ->
  Client.endpoint_found (on_chunk (Utf8 text) st).1 = true /\
  (Client.after_first "data: " (strip text) = None ->
   on_chunk (Utf8 text) st
   = ({| Client.session_id := Client.session_id st;
         Client.messages_url := Client.messages_url st;
         Client.endpoint_found := true;
         Client.message_queue := Client.message_queue st |}, None)).
Proof.
  intros Hf Hp. unfold Client.on_chunk.
  destruct text as [|a text]; [discriminate|].
  set (decoded_line := strip (String a text)) in *.
  rewrite Hp, Hf. simpl andb. cbv iota.
  split.
  - destruct (Client.after_first _ _) as [data_part|]; [|done].
    destruct (loads data_part) as [e|endpoint_data]; [by destruct e|].
    destruct (Handlers.getitem _ _) as [url|e|]; [|by destruct e|done].
    destruct (session_id_of url) as [e|sid]; [by destruct e|done].
  - by intros ->.
Qed.

(** X19.  The first chunk that begins with "event: endpoint" decides what
    [sse_client] can return: the chunks before it are passed over, and
    whatever follows it, the pair returned is the pair that this chunk
    alone would give, or [(None, None)].  So when this chunk holds no
    "data: " (the event arrived without its data line), the client gets
    [(None, None)] even if a complete endpoint event comes later. *)
Theorem first_endpoint_event_decides
    (before after : list captured) (text : string) (ending : option exn)
    (message_queue : list json) :
  forallb (fun line => negb (Client.endpoint_event line)) before = true ->
  Client.endpoint_event (Utf8 text) = true ->
  let alone := (sse_client (Client.Stream 200 [Utf8 text] None) message_queue).1 in
  let whole :=
    (sse_client (Client.Stream 200 (before ++ Utf8 text :: after) ending)
       message_queue).1 in
  (whole = alone \/ whole = (None, None)) /\
  (Client.after_first "data: " (strip text) = None -> whole = (None, None)).
Proof.
  intros Hb He alone whole. simpl in He.
  set (st0 := {| Client.session_id := None; Client.messages_url := None;
                 Client.endpoint_found := false;
                 Client.message_queue := message_queue |}).
  assert (Hf0 : Client.endpoint_found st0 = false) by done.
  destruct (on_chunk_endpoint text st0 Hf0 He) as [Hf1 Hnodata].
  assert (Hwhole : whole
    = match on_chunk (Utf8 text) st0 with
      | (st1, None) =>
          match listen after st1, ending with
          | (st2, None), None => (Client.messages_url st2, Client.session_id st2)
          | _, _ => (None, None)
          end
      | (_, Some _) => (None, None)
      end).
  { subst whole. unfold Client.sse_client. simpl Z.eqb. cbv iota.
    fold st0. rewrite listen_app, (listen_before before st0 Hf0 Hb).
    change (listen (Utf8 text :: after) st0)
      with (match on_chunk (Utf8 text) st0 with
            | (st', None) => listen after st'
            | (st', Some e) => (st', Some e)
            end).
    destruct (on_chunk (Utf8 text) st0) as [st1 [e|]]; [done|].
    destruct (listen after st1) as [st2 [e|]]; [done|]. by destruct ending. }
  assert (Halone : alone
    = match on_chunk (Utf8 text) st0 with
      | (st1, None) => (Client.messages_url st1, Client.session_id st1)
      | (_, Some _) => (None, None)
      end).
  { subst alone. unfold Client.sse_client. simpl Z.eqb. cbv iota.
    fold st0.
    change (listen [Utf8 text] st0)
      with (match on_chunk (Utf8 text) st0 with
            | (st', None) => (st', None)
            | (st', Some e) => (st', Some e)
            end).
    by destruct (on_chunk (Utf8 text) st0) as [st1 [e|]]. }
  assert (Hcases : whole = alone \/ whole = (None, None)).
  { rewrite Hwhole, Halone.
    destruct (on_chunk (Utf8 text) st0) as [st1 [e|]]; [by left|].
    simpl in Hf1. destruct (listen_found after st1 Hf1) as (Hs & Hu & _).
    destruct (listen after st1) as [st2 [e|]]; [by right|].
    destruct ending; [by right|]. left. simpl in Hs, Hu. by rewrite Hs, Hu. }
  split; [exact Hcases|].
  intros Hnone. destruct Hcases as [->| ->]; [|done].
  rewrite Halone, (Hnodata Hnone). done.
Qed.

(** X20.  Without an endpoint event the client learns nothing and queues
    nothing: when no chunk begins with "event: endpoint", [sse_client]
    returns [(None, None)] and the queue is as it was, whatever the chunks
    hold and however the stream ends.  In particular the [data:] lines
    that come before the endpoint event are dropped. *)
Theorem nothing_is_queued_before_the_endpoint_event
    (status : Z) (chunks : list captured) (ending : option exn)
    (message_queue : list json) :
  forallb (fun line => negb (Client.endpoint_event line)) chunks = true ->
  sse_client (Client.Stream status chunks ending) message_queue
  = ((None, None), message_queue).
Proof.
  intros Hb. unfold Client.sse_client.
  destruct (status =? 200); [|done].
  rewrite listen_before; [|done|exact Hb].
  by destruct ending.
Qed.

End Listening.

Lemma first_endpoint_event_decides_witness :
  let loads : string -> exn + json :=
    fun _ => inr (JObj {["messages_url" := JStr "/messages/?session_id=abc"]}) in
  let session_id_of : json -> exn + option string := fun _ => inr (Some "abc") in
  (Client.sse_client loads session_id_of
     (Client.Stream 200
        ([Utf8 ("data: 1" +:+ nl)]
         ++ Utf8 ("event: endpoint" +:+ nl)
            :: [Utf8 ("event: endpoint" +:+ nl +:+ "data: {}" +:+ nl +:+ nl)])
        None) []).1
  = (None, None).
Proof.
  intros loads session_id_of.
  apply (proj2 (first_endpoint_event_decides loads session_id_of
                  [Utf8 ("data: 1" +:+ nl)]
                  [Utf8 ("event: endpoint" +:+ nl +:+ "data: {}" +:+ nl +:+ nl)]
                  ("event: endpoint" +:+ nl) None []
                  ltac:(reflexivity) ltac:(reflexivity))).
  reflexivity.
Defined.

Lemma nothing_is_queued_before_the_endpoint_event_witness :
  let loads : string -> exn + json := fun _ => inr (JInt 1) in
  let session_id_of : json -> exn + option string := fun _ => inr None in
  Client.sse_client loads session_id_of
    (Client.Stream 200 [Utf8 ("data: 1" +:+ nl); NotUtf8 "invalid start byte"; Utf8 ""]
       None) []
  = ((None, None), []).
Proof.
  intros loads session_id_of.
  apply (nothing_is_queued_before_the_endpoint_event loads session_id_of 200
           [Utf8 ("data: 1" +:+ nl); NotUtf8 "invalid start byte"; Utf8 ""]
           None []).
  reflexivity.
Defined.

(** ** The handshake, from the relay to the client *)

Lemma strip_endpoint_message (url : string) :
  strip (endpoint_message url)
  = "event: endpoint" +:+ nl +:+ "data: " +:+ dumps_singleton "messages_url" url.
Proof.
  unfold strip, endpoint_message.
  rewrite (lstrip_fixed ("event: endpoint" +:+ _)) by reflexivity.
  unfold dumps_singleton.
  assert (forall s1 s2 s3 s4 s5 : string,
            s1 +:+ nl +:+ s2 +:+ ("{" +:+ s3 +:+ s4 +:+ s5 +:+ "}") +:+ nl +:+ nl
            = (((s1 +:+ nl +:+ s2 +:+ "{" +:+ s3 +:+ s4 +:+ s5)
                +:+ String "}"%char "") +:+ String "010"%char "")
              +:+ String "010"%char "") as Hassoc.
  { intros. rewrite !append_assoc. reflexivity. }
  rewrite Hassoc, !rstrip_snoc_space, rstrip_snoc_other by reflexivity.
  rewrite !append_assoc. reflexivity.
Qed.

Lemma handshake_line (payload : string) :
  String.prefix "event: endpoint" ("event: endpoint" +:+ nl +:+ "data: " +:+ payload)
  = true /\
  Client.after_first "data: " ("event: endpoint" +:+ nl +:+ "data: " +:+ payload)
  = Some payload.
Proof.
  split; [reflexivity|].
  cbv -[Client.after_first String.prefix]. simpl. by destruct payload.
Qed.

Lemma endpoint_message_not_empty (url : string) : endpoint_message url <> "".
Proof. discriminate. Qed.

(** X21.  The handshake survives the way from the relay to the client:
    when the chunks of a push connection reach [sse_client] as they were
    sent and the stream ends, and [json.loads] gives back the object that
    [json.dumps] wrote and [urllib.parse] finds the session id in the
    query of the URL, then [sse_client] returns the URL and the session id
    that [handle_sse] made, and queues nothing. *)
Theorem handshake_reaches_the_client
    (loads : string -> exn + json) (session_id_of : json -> exn + option string)
    (rand : Z) (k : nat) (sgs : list signal) (message_queue : list json) :
  let r := handle_sse rand in
  loads (dumps_singleton "messages_url" (messages_url r))
  = inr (JObj {["messages_url" := JStr (messages_url r)]}) ->
  session_id_of (JStr (messages_url r)) = inr (Some (session_id r)) ->
  Client.sse_client loads session_id_of
    (Client.Stream 200 (Utf8 <$> sent r (repeat Tick k ++ Next :: sgs)) None)
    message_queue
  = ((Some (JStr (messages_url r)), Some (session_id r)), message_queue).
Proof.
  intros r Hloads Hsid. subst r.
  rewrite sent_from_first_next.
  set (url := messages_url (handle_sse rand)) in *.
  set (sid := session_id (handle_sse rand)) in *.
  change (Utf8 <$> [endpoint_message url]) with [Utf8 (endpoint_message url)].
  unfold Client.sse_client. simpl Z.eqb. cbv iota.
  unfold Client.listen, Client.on_chunk.
  pose proof (endpoint_message_not_empty url) as Hne.
  pose proof (strip_endpoint_message url) as Hstrip.
  destruct (endpoint_message url) as [|a text]; [done|].
  rewrite Hstrip.
  destruct (handshake_line (dumps_singleton "messages_url" url)) as [-> ->].
  cbn [Client.endpoint_found negb andb].
  rewrite Hloads. unfold Handlers.getitem.
  rewrite lookup_singleton_eq, Hsid. reflexivity.
Qed.

Lemma handshake_reaches_the_client_witness :
  let r := handle_sse 0 in
  let loads : string -> exn + json :=
    fun _ => inr (JObj {["messages_url" := JStr (messages_url r)]}) in
  let session_id_of : json -> exn + option string :=
    fun _ => inr (Some (session_id r)) in
  Client.sse_client loads session_id_of
    (Client.Stream 200 (Utf8 <$> sent r [Tick; Next; Tick; Cancel]) None) []
  = ((Some (JStr (messages_url r)), Some (session_id r)), []).
Proof.
  intros r loads session_id_of.
  apply (handshake_reaches_the_client loads session_id_of 0 1 [Tick; Cancel] []);
    reflexivity.
Defined.
